(** * Terdl-api: the video link service of [api/index.py]

    A shallow embedding of the Flask application: the URL validator, the
    in-memory identifier store, the link issuer ([/shorten]), the player
    resolver ([/<filename>/download/<int:video_id>]) and the streaming
    proxy ([/cdn/<video_id>]).

    The landing page, [generate_video_id] (never called) and the two
    manifest routes ([/temp/<filename>], [/generate]) read and write
    nothing of the store and are left out.

    Conventions.
    - A Python [str] is a list of code points ([list N]); [txt] turns a
      literal into one.
    - A Python value that flows through the handlers (a JSON field, a
      dictionary key) is a [pyval] or a [pykey]; an [int] and a [str] are
      different keys of a [dict], as in Python.
    - A call that may raise returns an [exc]. *)

From Stdlib Require Import ZArith NArith List String Ascii Bool Lia.
From stdpp Require Import base option list gmap fin_maps.

Set Default Proof Using "Type".

(** ** Text *)

Module Text.

Local Open Scope N_scope.

Fixpoint txt (s : string) : list N :=
  match s with
  | EmptyString => []
  | String a s' => N_of_ascii a :: txt s'
  end.

Definition is_ascii (c : N) : bool := c <? 128.
Definition is_digit (c : N) : bool := (48 <=? c) && (c <=? 57).
Definition is_upper (c : N) : bool := (65 <=? c) && (c <=? 90).
Definition is_lower (c : N) : bool := (97 <=? c) && (c <=? 122).
(** [c.isascii() and c.isalpha()] *)
Definition is_ascii_alpha (c : N) : bool := is_upper c || is_lower c.

(** [str.lower] on one code point, ASCII letters only (all that the
    scheme of a URL can hold). *)
Definition lower (c : N) : N := if is_upper c then c + 32 else c.

Definition eqc (a : N) (c : N) : bool := a =? c.

(** [c in s] for a single character [c]. *)
Definition mem (c : N) (s : list N) : bool := existsb (eqc c) s.

(** [(s[:i], s[i:])] where [i] is the first index whose character
    satisfies [p], the length of [s] when there is none. *)
Fixpoint break (p : N -> bool) (s : list N) : list N * list N :=
  match s with
  | [] => ([], [])
  | c :: s' =>
      if p c then ([], s)
      else let '(a, b) := break p s' in (c :: a, b)
  end.

(** [s.lstrip(chars)] with [chars] given as a predicate. *)
Fixpoint lstrip (p : N -> bool) (s : list N) : list N :=
  match s with
  | [] => []
  | c :: s' => if p c then lstrip p s' else s
  end.

(** [s.rstrip(chars)]. *)
Definition rstrip (p : N -> bool) (s : list N) : list N :=
  rev (lstrip p (rev s)).

(** [Some r] when [s = pre ++ r]. *)
Fixpoint strip_prefix (pre s : list N) : option (list N) :=
  match pre, s with
  | [], _ => Some s
  | a :: pre', c :: s' => if a =? c then strip_prefix pre' s' else None
  | _ :: _, [] => None
  end.

(** [s[s.find(pat) + len(pat):]] when [pat in s], [None] otherwise. *)
Fixpoint after_first (pat s : list N) : option (list N) :=
  match strip_prefix pat s with
  | Some r => Some r
  | None =>
      match s with
      | [] => None
      | _ :: s' => after_first pat s'
      end
  end.

(** Decimal digits of a positive number, most significant first;
    [fuel] bounds the number of digits. *)
Fixpoint digits (fuel : nat) (n : N) (acc : list N) : list N :=
  match fuel with
  | O => acc
  | S fuel' =>
      let acc' := (48 + n mod 10) :: acc in
      if n / 10 =? 0 then acc' else digits fuel' (n / 10) acc'
  end.

(** [str(n)] for a Python [int]. *)
Definition str_of_int (z : Z) : list N :=
  match z with
  | Z0 => [48]
  | Zpos p => digits (S (N.to_nat (N.log2 (Npos p)))) (Npos p) []
  | Zneg p => 45 :: digits (S (N.to_nat (N.log2 (Npos p)))) (Npos p) []
  end.

End Text.

Export Text.

(** ** Python values and exceptions *)

(** The values a request can put into the handlers' variables: [None],
    booleans, integers and strings, and any other JSON value (a float, a
    list, an object), of which only the truth value and [str()] matter. *)
Inductive pyval :=
| PNone
| PBool (b : bool)
| PInt (z : Z)
| PStr (s : list N)
| POther (truth : bool) (repr : list N).

#[global] Instance pyval_eq_dec : EqDecision pyval.
Proof. solve_decision. Defined.

(** [bool(v)] *)
Definition truthy (v : pyval) : bool :=
  match v with
  | PNone => false
  | PBool b => b
  | PInt z => negb (z =? 0)%Z
  | PStr s => match s with [] => false | _ => true end
  | POther t _ => t
  end.

(** [a or b] *)
Definition py_or (a b : pyval) : pyval := if truthy a then a else b.

(** [str(v)], as an f-string renders it. *)
Definition py_str (v : pyval) : list N :=
  match v with
  | PNone => txt "None"
  | PBool true => txt "True"
  | PBool false => txt "False"
  | PInt z => str_of_int z
  | PStr s => s
  | POther _ r => r
  end.

(** The keys of [video_storage]: Python compares an [int] key and a [str]
    key as different, whatever their contents. *)
Inductive pykey :=
| KInt (n : Z)
| KStr (s : list N).

#[global] Instance pykey_eq_dec : EqDecision pykey.
Proof. solve_decision. Defined.

#[global] Instance pykey_countable : Countable pykey.
Proof.
  refine (inj_countable'
            (fun k => match k with KInt n => inl n | KStr s => inr s end)
            (fun x => match x with inl n => KInt n | inr s => KStr s end) _).
  by intros [].
Defined.

(** The exception classes the handlers can meet. *)
Inductive exn_class :=
| TypeError
| AttributeError
| ValueError
| UnicodeDecodeError
| RequestException (kind : string)
| OtherException (kind : string).

Record exn := { exn_cls : exn_class; exn_text : list N }.

Inductive exc (A : Type) :=
| Ok (a : A)
| Raise (e : exn).
Arguments Ok {A} a.
Arguments Raise {A} e.

Definition exc_bind {A B} (m : exc A) (f : A -> exc B) : exc B :=
  match m with
  | Ok a => f a
  | Raise e => Raise e
  end.

Declare Scope exc_scope.
Delimit Scope exc_scope with exc.
Notation "x <-! m ;; k" := (exc_bind m (fun x => k))
  (at level 100, m at next level, right associativity) : exc_scope.
Local Open Scope exc_scope.

(** ** The identifier store (source lines 39-47) *)

(** One entry, the dictionary [{"url": ..., "filename": ...}]. *)
Record video_info := { vi_url : pyval; vi_filename : pyval }.

#[global] Instance video_info_eq_dec : EqDecision video_info.
Proof. solve_decision. Defined.

(** The module's two globals. *)
Record state := {
  video_counter : Z;
  video_storage : gmap pykey video_info
}.

Definition initial : state :=
  {| video_counter := 1; video_storage := ∅ |}.

Definition default_filename : pyval := PStr (txt "video.mp4").

Definition store_video_url (url filename : pyval) (st : state) : Z * state :=
  let vid := video_counter st in
  let storage :=
    <[KInt vid := {| vi_url := url; vi_filename := py_or filename default_filename |}]>
      (video_storage st) in
  (vid, {| video_counter := vid + 1; video_storage := storage |}).

(** ** The parts of [urllib.parse] that [validate_url] calls

    Modelled after CPython 3.12 ([Lib/urllib/parse.py]).  Two checks of
    [urlsplit] rest on tables that are not reproduced here (the parser of
    [ipaddress] and Unicode normalisation); they are parameters of the
    model, and every statement below holds for all their behaviours. *)

Module Urllib.

Local Open Scope N_scope.

(** *** UTF-8 decoding *)

Definition cont (b : N) : bool := (128 <=? b) && (b <=? 191).

(** The second byte of a three-byte sequence: no overlong forms
    (lead E0) and no surrogates (lead ED). *)
Definition second_ok3 (b0 b1 : N) : bool :=
  cont b1 &&
  (if b0 =? 224 then 160 <=? b1 else if b0 =? 237 then b1 <? 160 else true).

(** The second byte of a four-byte sequence: no overlong forms (lead
    F0) and nothing above U+10FFFF (lead F4). *)
Definition second_ok4 (b0 b1 : N) : bool :=
  cont b1 &&
  (if b0 =? 240 then 144 <=? b1 else if b0 =? 244 then b1 <? 144 else true).

(** The decoder's scan: a code point for each well-formed sequence,
    [None] for each ill-formed range (an invalid start byte, or a lead
    byte with the valid continuation bytes that follow it). *)
Fixpoint utf8_scan (bs : list N) : list (option N) :=
  match bs with
  | [] => []
  | b0 :: r0 =>
      if b0 <? 128 then Some b0 :: utf8_scan r0
      else if (b0 <? 194) || (244 <? b0) then None :: utf8_scan r0
      else if b0 <? 224 then
        match r0 with
        | [] => [None]
        | b1 :: r1 =>
            if cont b1
            then Some ((b0 - 192) * 64 + (b1 - 128)) :: utf8_scan r1
            else None :: utf8_scan r0
        end
      else if b0 <? 240 then
        match r0 with
        | [] => [None]
        | b1 :: r1 =>
            if second_ok3 b0 b1 then
              match r1 with
              | [] => [None]
              | b2 :: r2 =>
                  if cont b2
                  then Some ((b0 - 224) * 4096 + (b1 - 128) * 64 + (b2 - 128))
                         :: utf8_scan r2
                  else None :: utf8_scan r1
              end
            else None :: utf8_scan r0
        end
      else
        match r0 with
        | [] => [None]
        | b1 :: r1 =>
            if second_ok4 b0 b1 then
              match r1 with
              | [] => [None]
              | b2 :: r2 =>
                  if cont b2 then
                    match r2 with
                    | [] => [None]
                    | b3 :: r3 =>
                        if cont b3
                        then Some ((b0 - 240) * 262144 + (b1 - 128) * 4096
                                   + (b2 - 128) * 64 + (b3 - 128))
                               :: utf8_scan r3
                        else None :: utf8_scan r2
                    end
                  else None :: utf8_scan r1
              end
            else None :: utf8_scan r0
        end
  end.

(** [bs.decode('utf-8', 'replace')]: U+FFFD for each ill-formed range. *)
Definition decode_replace (bs : list N) : list N :=
  map (fun o => match o with Some c => c | None => 65533 end) (utf8_scan bs).

Definition unicode_decode_error : exn :=
  {| exn_cls := UnicodeDecodeError;
     exn_text := txt "'utf-8' codec can't decode bytes" |}.

(** [bs.decode('utf-8')]: raises on the first ill-formed range. *)
Definition decode_strict (bs : list N) : exc (list N) :=
  if forallb (fun o => match o with Some _ => true | None => false end) (utf8_scan bs)
  then Ok (decode_replace bs)
  else Raise unicode_decode_error.

(** *** [unquote] *)

Definition hexval (c : N) : option N :=
  if is_digit c then Some (c - 48)
  else if (65 <=? c) && (c <=? 70) then Some (c - 55)
  else if (97 <=? c) && (c <=? 102) then Some (c - 87)
  else None.

Definition percent : N := 37.

(** [unquote_to_bytes] on ASCII text: each [%XX] with two hexadecimal
    digits becomes the byte, any other [%] stays. *)
Fixpoint unquote_to_bytes (s : list N) : list N :=
  match s with
  | [] => []
  | c :: s' =>
      if c =? percent then
        match s' with
        | h1 :: h2 :: s'' =>
            match hexval h1, hexval h2 with
            | Some a, Some b => (16 * a + b) :: unquote_to_bytes s''
            | _, _ => c :: unquote_to_bytes s'
            end
        | _ => c :: unquote_to_bytes s'
        end
      else c :: unquote_to_bytes s'
  end.

(** The loop over [_asciire.split(string)]: each maximal run of ASCII
    characters is unquoted and decoded, the characters between the runs
    are kept.  [run] holds the current run, last character first. *)
Fixpoint unquote_runs (s run : list N) : list N :=
  match s with
  | [] => decode_replace (unquote_to_bytes (rev run))
  | c :: s' =>
      if is_ascii c then unquote_runs s' (c :: run)
      else decode_replace (unquote_to_bytes (rev run)) ++ c :: unquote_runs s' []
  end.

Definition unquote_str (s : list N) : list N :=
  if mem percent s then unquote_runs s [] else s.

Definition not_a_string : exn :=
  {| exn_cls := TypeError; exn_text := txt "argument is not a str" |}.

(** [unquote(string)]: a value that is not a [str] fails the test
    ['%' not in string] or the attribute access [string.split]. *)
Definition unquote (v : pyval) : exc (list N) :=
  match v with
  | PStr s => Ok (unquote_str s)
  | PNone | PBool _ | PInt _ => Raise not_a_string
  | POther _ _ =>
      Raise {| exn_cls := AttributeError; exn_text := txt "object has no attribute 'split'" |}
  end.

(** *** [urlsplit] and [urlparse] *)

(** What [validate_url] reads of the parse: the scheme and the network
    location; [rest] is the text after them (path, parameters, query and
    fragment, which [urlparse] goes on to separate without raising). *)
Record parse_result := {
  scheme : list N;
  netloc : list N;
  rest : list N
}.

(** [_WHATWG_C0_CONTROL_OR_SPACE] *)
Definition c0_or_space (c : N) : bool := c <=? 32.

(** [_UNSAFE_URL_BYTES_TO_REMOVE]: tab, line feed, carriage return. *)
Definition unsafe_byte (c : N) : bool := (c =? 9) || (c =? 10) || (c =? 13).

(** [scheme_chars]: ASCII letters, digits, [+], [-] and [.]. *)
Definition scheme_char (c : N) : bool :=
  is_ascii_alpha c || is_digit c || (c =? 43) || (c =? 45) || (c =? 46).

Definition colon : N := 58.
Definition slash : N := 47.
Definition question : N := 63.
Definition hash : N := 35.
Definition at_sign : N := 64.
Definition lbracket : N := 91.
Definition rbracket : N := 93.

(** [i = url.find(':')] and the test that [url[:i]] is a scheme. *)
Definition split_scheme (url : list N) : list N * list N :=
  match break (eqc colon) url with
  | (c :: pre, _ :: post) =>
      if is_ascii_alpha c && forallb scheme_char (c :: pre)
      then (map lower (c :: pre), post)
      else ([], url)
  | _ => ([], url)
  end.

(** A delimiter that ends the network location. *)
Definition netloc_delim (c : N) : bool :=
  (c =? slash) || (c =? question) || (c =? hash).

(** [_splitnetloc(url, 2)] when [url[:2] == '//']. *)
Definition split_netloc (url : list N) : list N * list N :=
  match url with
  | a :: b :: url' =>
      if (a =? slash) && (b =? slash) then break netloc_delim url' else ([], url)
  | _ => ([], url)
  end.

(** [netloc.partition('[')[2].partition(']')[0]] *)
Definition bracketed_host (nl : list N) : list N :=
  fst (break (eqc rbracket) (tl (snd (break (eqc lbracket) nl)))).

Definition invalid_url (msg : string) : exn :=
  {| exn_cls := ValueError; exn_text := txt msg |}.

Section Parse.

(** [_check_bracketed_host]: [true] when it returns, [false] when it
    raises [ValueError]. *)
Variable check_bracketed_host : list N -> bool.
(** [_checknetloc] on a network location that is not ASCII: [true]
    when it returns, [false] when it raises [ValueError]. *)
Variable checknetloc_nfkc : list N -> bool.

Definition urlsplit (url : list N) : exc parse_result :=
  let url := lstrip c0_or_space url in
  let url := filter (fun c => negb (unsafe_byte c)) url in
  let '(sch, url) := split_scheme url in
  let '(nl, url) := split_netloc url in
  if xorb (mem lbracket nl) (mem rbracket nl)
  then Raise (invalid_url "Invalid IPv6 URL")
  else if mem lbracket nl && mem rbracket nl
            && negb (check_bracketed_host (bracketed_host nl))
  then Raise (invalid_url "Invalid bracketed host")
  else if negb (forallb is_ascii nl) && negb (checknetloc_nfkc nl)
  then Raise (invalid_url "netloc contains invalid characters under NFKC normalization")
  else Ok {| scheme := sch; netloc := nl; rest := url |}.

Definition urlparse (url : list N) : exc parse_result := urlsplit url.

End Parse.

(** [s.rpartition(c)[2]] *)
Definition after_last (c : N) (s : list N) : list N :=
  rev (fst (break (eqc c) (rev s))).

(** [_hostinfo[0]] of a parse: the network location without the user
    information before the last [@] and without the port. The property
    [hostname] is [None] exactly when this text is empty. *)
Definition hostinfo_host (nl : list N) : list N :=
  let hostinfo := after_last at_sign nl in
  match break (eqc lbracket) hostinfo with
  | (_, _ :: bracketed) => fst (break (eqc rbracket) bracketed)
  | (_, []) => fst (break (eqc colon) hostinfo)
  end.

End Urllib.

(** ** Requests and responses *)

Inductive http_method := GET | POST.

(** What [request.get_json(silent=True)] gives: [None] (no body, a body
    that is not JSON, the JSON [null]), an object, or another JSON value
    (an array, a string, a number, a boolean) with its truth value. *)
Inductive json_body :=
| JsonNone
| JsonObject (fields : gmap (list N) pyval)
| JsonOther (truth : bool).

(** The parts of Flask's [request] that the handlers read.  Header names
    are looked up without regard to case by the framework; here the keys
    of [headers] are the names as the handlers spell them. *)
Record request := {
  method : http_method;
  host_url : list N;
  query_string : list N;             (* the raw bytes after [?] *)
  args : gmap (list N) (list N);     (* [request.args], parsed by Flask *)
  json : json_body;
  headers : gmap (list N) (list N)
}.

Inductive body :=
| Json (fields : gmap (list N) pyval)
| Template (name : list N) (context : gmap (list N) pyval)
| Stream (chunks : list (list N))
| Empty.

Record response := {
  status : Z;
  resp_headers : gmap (list N) (list N);
  content : body
}.

(** One [key: value] pair of a dictionary literal or of keyword
    arguments. *)
Definition field (key : string) (value : pyval) : string * pyval := (key, value).

(** [jsonify(fields), code] *)
Definition jsonify (fields : list (string * pyval)) (code : Z) : response :=
  {| status := code;
     resp_headers := ∅;
     content := Json (list_to_map (map (fun kv => (txt (fst kv), snd kv)) fields)) |}.

(** [render_template(name, **context)]: the template file is not part of
    the sources, so a rendered page is the template's name with the
    values handed to it. *)
Definition render_template (name : string) (context : list (string * pyval)) : response :=
  {| status := 200;
     resp_headers := ∅;
     content := Template (txt name) (list_to_map (map (fun kv => (txt (fst kv), snd kv)) context)) |}.

(** [redirect(location, code=302)] *)
Definition redirect (location : list N) (code : Z) : response :=
  {| status := code; resp_headers := {[ txt "Location" := location ]}; content := Empty |}.

(** [d.get(key)] on a dictionary of values, [None] when absent. *)
Definition dict_get (d : gmap (list N) pyval) (key : string) : pyval :=
  default PNone (d !! txt key).

(** [request.args.get(key)] *)
Definition args_get (req : request) (key : string) : pyval :=
  match args req !! txt key with
  | Some s => PStr s
  | None => PNone
  end.

(** What the streaming proxy hands to [requests.get]. *)
Record outbound := {
  ob_target : video_info;
  ob_headers : gmap (list N) (list N);
  ob_stream : bool;
  ob_timeout : Z
}.

(** What [requests.get] returns: the status, the headers and the body as
    [iter_content(chunk_size=8192)] yields it. *)
Record upstream := {
  up_status : Z;
  up_headers : gmap (list N) (list N);
  up_chunks : list (list N)
}.

Definition is_request_exception (e : exn) : bool :=
  match exn_cls e with
  | RequestException _ => true
  | _ => false
  end.

(** ** The handlers *)

Section App.

(** The two parameters of [urlsplit] (see [Urllib]). *)
Variable check_bracketed_host : list N -> bool.
Variable checknetloc_nfkc : list N -> bool.

(** The HTTP client: [requests.get(target, headers=..., stream=True,
    timeout=...)] either returns a response or raises. *)
Variable requests_get : outbound -> exc upstream.

(** Source lines 12-23. *)
Definition validate_url (url : pyval) : bool :=
  match
    (decoded_url <-! Urllib.unquote url ;;
     Urllib.urlparse check_bracketed_host checknetloc_nfkc decoded_url)
  with
  | Ok parsed =>
      if negb (bool_decide (Urllib.scheme parsed ∈ [txt "http"; txt "https"])) then false
      else if negb (truthy (PStr (Urllib.netloc parsed))) then false
      else true
  | Raise _ => false
  end.

(** Source lines 30-37. *)
Definition extract_full_url (req : request) : exc pyval :=
  query_string <-! Urllib.decode_strict (query_string req) ;;
  match after_first (txt "url=") query_string with
  | Some full_url =>
      unquoted <-! Urllib.unquote (PStr full_url) ;;
      Ok (PStr unquoted)
  | None => Ok PNone
  end.

Definition no_get_attribute : exn :=
  {| exn_cls := AttributeError; exn_text := txt "object has no attribute 'get'" |}.

(** [request.get_json(silent=True) or {}], on which [.get] is called. *)
Definition json_data (req : request) : exc (gmap (list N) pyval) :=
  match json req with
  | JsonNone => Ok ∅
  | JsonObject fields => Ok fields
  | JsonOther false => Ok ∅
  | JsonOther true => Raise no_get_attribute
  end.

(** Source lines 84-115.  An exception leaves the handler before the
    store is touched, so the state only comes with a response. *)
Definition shorten (req : request) (st : state) : exc (response * state) :=
  posted <-! (match method req with
              | POST =>
                  data <-! json_data req ;;
                  Ok (dict_get data "url", dict_get data "name")
              | GET => Ok (PNone, PNone)
              end) ;;
  chosen <-! (if negb (truthy (fst posted)) then
                extracted <-! extract_full_url req ;;
                Ok (py_or extracted (args_get req "url"), args_get req "name")
              else Ok posted) ;;
  let long_url := fst chosen in
  let filename := snd chosen in
  if negb (truthy long_url) then
    Ok (jsonify [field "success" (PBool false); field "error" (PStr (txt "No URL provided."))] 400, st)
  else if negb (validate_url long_url) then
    Ok (jsonify [field "success" (PBool false); field "error" (PStr (txt "Invalid URL."))] 400, st)
  else
    let '(vid, st') := store_video_url long_url filename st in
    let host := rstrip (eqc Urllib.slash) (host_url req) in
    let shown := py_str (py_or filename default_filename) in
    let short_url := host ++ txt "/" ++ shown ++ txt "/download/" ++ str_of_int vid in
    let player_url := host ++ txt "/player?vid=" ++ str_of_int vid ++ txt "&name=" ++ shown in
    let cdn_url := host ++ txt "/cdn/" ++ str_of_int vid in
    Ok (jsonify [field "success" (PBool true);
                 field "video_id" (PInt vid);
                 field "short_url" (PStr short_url);
                 field "player_url" (PStr player_url);
                 field "cdn_url" (PStr cdn_url);
                 field "filename" (py_or filename default_filename)] 200,
        st').

(** Source lines 117-120. *)
Definition short_redirect (video_id : list N) : response :=
  redirect (txt "/player?vid=" ++ video_id) 302.

Definition expired_url : pyval :=
  PStr (txt "https://effective-zebra-wqr496wpv6p3g6vx.github.dev/").

(** Source lines 122-138; the converter [int:] hands [video_id] over as
    an integer. *)
Definition download_or_play (filename : list N) (video_id : Z) (st : state) : response :=
  match video_storage st !! KInt video_id with
  | None =>
      let video_url := expired_url in
      let filename := PStr (txt "Expired") in
      render_template "player.html"
        [field "video_url" video_url; field "original_url" video_url; field "filename" filename]
  | Some video_info =>
      let video_url := vi_url video_info in
      let filename := py_or (PStr filename) (vi_filename video_info) in
      render_template "player.html"
        [field "video_url" video_url; field "original_url" video_url; field "filename" filename]
  end.

(** Source lines 141-148. *)
Definition api (req : request) : exc response :=
  extracted <-! extract_full_url req ;;
  let video_url := py_or extracted (args_get req "url") in
  if negb (truthy video_url) then
    Ok (jsonify [field "error" (PStr (txt "No URL provided. Use ?url=VIDEO_LINK"))] 400)
  else if negb (validate_url video_url) then
    Ok (jsonify [field "error" (PStr (txt "Invalid URL. Only HTTP/HTTPS URLs are allowed."))] 400)
  else Ok (jsonify [field "success" (PBool true); field "download_link" video_url] 200).

(** The header set of the outbound request, source lines 157-166. *)
Definition outbound_headers (req : request) : gmap (list N) (list N) :=
  let range_header := headers req !! txt "Range" in
  let hs : gmap (list N) (list N) :=
    list_to_map
      [(txt "User-Agent", default (txt "Mozilla/5.0") (headers req !! txt "User-Agent"));
       (txt "Accept", txt "*/*");
       (txt "Accept-Language", txt "en-US,en;q=0.9");
       (txt "Accept-Encoding", txt "identity");
       (txt "Connection", txt "keep-alive")] in
  match range_header with
  | Some r => if truthy (PStr r) then <[txt "Range" := r]> hs else hs
  | None => hs
  end.

(** The relayed response, source lines 170-192. *)
Definition relay (resp : upstream) : response :=
  let response_headers : gmap (list N) (list N) :=
    list_to_map
      [(txt "Content-Type", default (txt "video/mp4") (up_headers resp !! txt "Content-Type"));
       (txt "Accept-Ranges", txt "bytes");
       (txt "Cache-Control", txt "public, max-age=3600")] in
  let response_headers :=
    match up_headers resp !! txt "Content-Length" with
    | Some content_length =>
        if truthy (PStr content_length)
        then <[txt "Content-Length" := content_length]> response_headers
        else response_headers
    | None => response_headers
    end in
  let flask_headers :=
    match up_headers resp !! txt "Content-Range" with
    | Some content_range => <[txt "Content-Range" := content_range]> response_headers
    | None => response_headers
    end in
  {| status := up_status resp;
     resp_headers := flask_headers;
     content := Stream (filter (fun chunk => chunk ≠ []) (up_chunks resp)) |}.

(** Source lines 150-195; the route [/cdn/<video_id>] has no converter,
    so [video_id] is the path segment, a [str].  The result comes with
    the calls made to [requests.get], in order. *)
Definition stream_video (video_id : list N) (req : request) (st : state)
  : exc response * list outbound :=
  match video_storage st !! KStr video_id with
  | None => (Ok (jsonify [field "error" (PStr (txt "Video not found"))] 404), [])
  | Some original_url =>
      let call := {| ob_target := original_url;
                     ob_headers := outbound_headers req;
                     ob_stream := true;
                     ob_timeout := 30 |} in
      match requests_get call with
      | Ok resp => (Ok (relay resp), [call])
      | Raise e =>
          if is_request_exception e then
            (Ok (jsonify [field "error" (PStr (txt "Failed to stream video: " ++ exn_text e))] 500),
             [call])
          else (Raise e, [call])
      end
  end.

(** *** The process: one request after another *)

Inductive call :=
| CallShorten (req : request)
| CallShortRedirect (video_id : list N)
| CallDownloadOrPlay (filename : list N) (video_id : Z)
| CallApi (req : request)
| CallStreamVideo (video_id : list N) (req : request).

(** One request served: the answer (or the exception that leaves the
    handler) and the globals afterwards.  Only [shorten] writes them. *)
Definition serve (c : call) (st : state) : exc response * state :=
  match c with
  | CallShorten req =>
      match shorten req st with
      | Ok (r, st') => (Ok r, st')
      | Raise e => (Raise e, st)
      end
  | CallShortRedirect video_id => (Ok (short_redirect video_id), st)
  | CallDownloadOrPlay filename video_id => (Ok (download_or_play filename video_id st), st)
  | CallApi req => (api req, st)
  | CallStreamVideo video_id req => (fst (stream_video video_id req st), st)
  end.

(** The globals after a history of requests. *)
Definition run (history : list call) (st : state) : state :=
  foldl (fun st c => snd (serve c st)) st history.

End App.

(** A sequence of calls of [store_video_url], each with its arguments:
    the identifiers returned, in call order, and the globals afterwards. *)
Fixpoint allocate_all (calls : list (pyval * pyval)) (st : state) : list Z * state :=
  match calls with
  | [] => ([], st)
  | (url, filename) :: calls' =>
      let '(vid, st1) := store_video_url url filename st in
      let '(vids, st2) := allocate_all calls' st1 in
      (vid :: vids, st2)
  end.

(** ** Notions used in the statements *)

(** The store holds exactly the integer keys from 1 up to the counter. *)
Definition store_inv (st : state) : Prop :=
  (1 <= video_counter st)%Z /\
  forall k, is_Some (video_storage st !! k) <->
            exists n, k = KInt n /\ (1 <= n < video_counter st)%Z.

(** Every entry of [st] is an entry of [st'], unchanged. *)
Definition entries_kept (st st' : state) : Prop :=
  forall k v, video_storage st !! k = Some v -> video_storage st' !! k = Some v.

(** An ASCII character other than the percent sign: [unquote] keeps it. *)
Definition plain (c : N) : Prop := is_ascii c = true /\ c <> Urllib.percent.

(** A character that a network location can hold as it is: printable
    ASCII other than the delimiters [/], [?], [#], the brackets and the
    percent sign. *)
Definition netloc_char (c : N) : bool :=
  (32 <? c)%N && (c <? 127)%N
  && negb (Urllib.netloc_delim c)
  && negb (c =? Urllib.lbracket)%N && negb (c =? Urllib.rbracket)%N
  && negb (c =? Urllib.percent)%N.

(** What follows the network location: nothing, or a path, a query or a
    fragment, that is, a text that begins with [/], [?] or [#]. *)
Definition begins_path (rest : list N) : bool :=
  match rest with
  | [] => true
  | c :: _ => Urllib.netloc_delim c
  end.

(** ** Concrete inputs for the scenario and the examples *)

(** A behaviour of the two parameters of [urlsplit]: both checks pass. *)
Definition checks_pass : list N -> bool := fun _ => true.

(** A request with nothing in it. *)
Definition bare_request (m : http_method) : request :=
  {| method := m;
     host_url := txt "http://localhost:5000/";
     query_string := [];
     args := ∅;
     json := JsonNone;
     headers := ∅ |}.

(** [POST /shorten] with the body [{"url": url}]. *)
Definition post_url (url : string) : request :=
  {| method := POST;
     host_url := txt "http://localhost:5000/";
     query_string := [];
     args := ∅;
     json := JsonObject {[ txt "url" := PStr (txt url) ]};
     headers := ∅ |}.

(** A [GET] request with the given headers. *)
Definition get_with (hs : list (string * string)) : request :=
  {| method := GET;
     host_url := txt "http://localhost:5000/";
     query_string := [];
     args := ∅;
     json := JsonNone;
     headers := list_to_map (map (fun kv => (txt (fst kv), txt (snd kv))) hs) |}.

Definition header (name value : string) : string * string := (name, value).

(** A mock upstream that answers every request with [206] and the body
    [abcd], and one that answers with the given status and headers. *)
Definition upstream_206 : outbound -> exc upstream :=
  fun _ => Ok {| up_status := 206; up_headers := ∅; up_chunks := [txt "abcd"] |}.

Definition upstream_answers (code : Z) (hs : list (string * string)) (chunks : list (list N))
  : outbound -> exc upstream :=
  fun _ => Ok {| up_status := code;
                 up_headers := list_to_map (map (fun kv => (txt (fst kv), txt (snd kv))) hs);
                 up_chunks := chunks |}.

(** A mock upstream that cannot be reached. *)
Definition upstream_fails (kind text : string) : outbound -> exc upstream :=
  fun _ => Raise {| exn_cls := RequestException kind; exn_text := txt text |}.

(** The entry that the scenario stores. *)
Definition sample_info : video_info :=
  {| vi_url := PStr (txt "http://example.com/v.mp4"); vi_filename := default_filename |}.

(** ** The answers of a history *)

Section Answers.

Variable check_bracketed_host : list N -> bool.
Variable checknetloc_nfkc : list N -> bool.
Variable requests_get : outbound -> exc upstream.

(** The answers to a history of requests, in order, and the globals
    afterwards. *)
Fixpoint serve_all (history : list call) (st : state) : list (exc response) * state :=
  match history with
  | [] => ([], st)
  | c :: history' =>
      let '(r, st1) := serve check_bracketed_host checknetloc_nfkc requests_get c st in
      let '(rs, st2) := serve_all history' st1 in
      (r :: rs, st2)
  end.

End Answers.

(** The [video_id] of an answer that carries one (the JSON of a
    successful [/shorten]). *)
Definition video_id_of (r : exc response) : option Z :=
  match r with
  | Ok resp =>
      match content resp with
      | Json fields =>
          match fields !! txt "video_id" with
          | Some (PInt n) => Some n
          | _ => None
          end
      | _ => None
      end
  | Raise _ => None
  end.

(** The names of the headers that the proxy sends to the upstream, and
    of those it sends back to the client. *)
Definition outbound_header_names : list (list N) :=
  [txt "User-Agent"; txt "Accept"; txt "Accept-Language"; txt "Accept-Encoding";
   txt "Connection"; txt "Range"].

Definition relayed_header_names : list (list N) :=
  [txt "Content-Type"; txt "Accept-Ranges"; txt "Cache-Control"; txt "Content-Length";
   txt "Content-Range"].

(** The chunks of a streamed body. *)
Definition streamed (b : body) : list (list N) :=
  match b with
  | Stream chunks => chunks
  | _ => []
  end.

(** ** The routes

    The rules of the [@app.route] decorators, with the rule that Flask
    adds for the static folder, and Werkzeug's matching of a path against
    one rule: the path is split at [/]; a literal part matches itself,
    [<name>] a segment that is not empty, [<int:name>] a segment of
    decimal digits, [<path:name>] whatever is left when it does not begin
    with [/].  Which of several matching rules wins, the redirects for
    doubled slashes and the methods are not modelled. *)

Inductive endpoint :=
| EpHome
| EpShorten
| EpShortRedirect
| EpDownloadOrPlay
| EpApi
| EpStreamVideo
| EpGetM3u8
| EpGenerateM3u8
| EpStatic.

Inductive part :=
| Lit (s : string)
| StrArg
| IntArg
| PathArg.

Definition url_map : list (list part * endpoint) :=
  [([Lit ""], EpHome);
   ([Lit "shorten"], EpShorten);
   ([Lit "s"; StrArg], EpShortRedirect);
   ([StrArg; Lit "download"; IntArg], EpDownloadOrPlay);
   ([Lit "api"], EpApi);
   ([Lit "cdn"; StrArg], EpStreamVideo);
   ([Lit "temp"; StrArg], EpGetM3u8);
   ([Lit "generate"], EpGenerateM3u8);
   ([Lit "static"; PathArg], EpStatic)].

(** [s.split('/')] *)
Fixpoint split_slash (s : list N) : list (list N) :=
  match s with
  | [] => [[]]
  | c :: s' =>
      if (c =? Urllib.slash)%N then [] :: split_slash s'
      else match split_slash s' with
           | seg :: segs => (c :: seg) :: segs
           | [] => [[c]]
           end
  end.

(** ['/'.join(segs)] *)
Fixpoint join_slash (segs : list (list N)) : list N :=
  match segs with
  | [] => []
  | [seg] => seg
  | seg :: segs' => seg ++ Urllib.slash :: join_slash segs'
  end.

(** A character that ends the path of a link: [?] or [#]. *)
Definition ends_path (c : N) : bool := (c =? Urllib.question)%N || (c =? Urllib.hash)%N.

(** The path of a link: the text before the query and the fragment. *)
Definition link_path (link : list N) : list N := fst (break ends_path link).

(** The path that Werkzeug matches for a link that a client follows: the
    text before the query and the fragment, with its escapes decoded (the
    WSGI server unquotes the path of the request line). *)
Definition routed_path (link : list N) : list N := Urllib.unquote_str (link_path link).

(** A character that stands for itself in a segment of a path, for any
    client and for the server: an ASCII letter or digit, or one of the
    marks that RFC 3986 allows there without an escape.  The escape sign,
    the delimiters, the backslash, spaces and whatever lies beyond ASCII
    are not among them. *)
Definition segment_char (c : N) : bool :=
  is_ascii_alpha c || is_digit c || mem c (txt "-._~!$&'*+,;=:@()").

(** A filename that is one such segment: not empty, not a dot segment
    (a client removes those from a path), and not [static], the folder of
    the rule that Flask adds. *)
Definition plain_segment (seg : list N) : bool :=
  forallb segment_char seg
  && negb (bool_decide (seg ∈ [[]; txt "."; txt ".."; txt "static"])).

Section Routing.

(** The value of a decimal digit that is not ASCII
    ([unicodedata.decimal]), [None] for any other character. *)
Variable unicode_decimal : N -> option N.

Definition decimal_value (c : N) : option N :=
  if is_ascii c then (if is_digit c then Some (c - 48)%N else None)
  else unicode_decimal c.

(** [int(seg)] for a text of decimal digits, read from the left. *)
Fixpoint int_of_digits (acc : Z) (seg : list N) : option Z :=
  match seg with
  | [] => Some acc
  | c :: seg' =>
      match decimal_value c with
      | Some d => int_of_digits (10 * acc + Z.of_N d) seg'
      | None => None
      end
  end.

(** The converter [int]: the segment matches [\d+] and is converted by
    [int]. *)
Definition int_converter (seg : list N) : option Z :=
  match seg with
  | [] => None
  | _ :: _ => int_of_digits 0 seg
  end.

(** The arguments that a rule captures from the segments of a path,
    [None] when the rule does not match. *)
Fixpoint match_parts (parts : list part) (segs : list (list N)) : option (list pyval) :=
  match parts, segs with
  | [], [] => Some []
  | Lit s :: parts', seg :: segs' =>
      if bool_decide (txt s = seg) then match_parts parts' segs' else None
  | StrArg :: parts', seg :: segs' =>
      match seg with
      | [] => None
      | _ :: _ => cons (PStr seg) <$> match_parts parts' segs'
      end
  | IntArg :: parts', seg :: segs' =>
      match int_converter seg with
      | Some n => cons (PInt n) <$> match_parts parts' segs'
      | None => None
      end
  | [PathArg], (_ :: _) :: _ => Some [PStr (join_slash segs)]
  | _, _ => None
  end.

(** The rules that match a path, in the order of [url_map], each with the
    arguments it captures. *)
Definition matching_rules (path : list N) : list (endpoint * list pyval) :=
  match path with
  | c :: path' =>
      if (c =? Urllib.slash)%N
      then omap (fun rule => pair (snd rule) <$> match_parts (fst rule) (split_slash path'))
             url_map
      else []
  | [] => []
  end.

End Routing.

(** ** [generate_video_id] (source lines 25-28)

    [hashlib.md5] is modelled after RFC 1321 on 32-bit words written as
    integers with the wrap-around spelled out; [str.encode] is UTF-8. *)

Module Md5.

Local Open Scope Z_scope.

Definition add32 (a b : Z) : Z := (a + b) mod 4294967296.

Definition not32 (a : Z) : Z := Z.lxor a 4294967295.

(** Rotation to the left by [c] bits, [0 < c < 32]. *)
Definition rotl32 (x c : Z) : Z :=
  Z.lor (Z.shiftl x c mod 4294967296) (Z.shiftr x (32 - c)).

(** The shift of each of the 64 steps. *)
Definition shifts : list Z :=
  [7; 12; 17; 22; 7; 12; 17; 22; 7; 12; 17; 22; 7; 12; 17; 22;
   5; 9; 14; 20; 5; 9; 14; 20; 5; 9; 14; 20; 5; 9; 14; 20;
   4; 11; 16; 23; 4; 11; 16; 23; 4; 11; 16; 23; 4; 11; 16; 23;
   6; 10; 15; 21; 6; 10; 15; 21; 6; 10; 15; 21; 6; 10; 15; 21].

(** [floor(2^32 * abs(sin(i + 1)))] for each of the 64 steps. *)
Definition sines : list Z :=
  [3614090360; 3905402710; 606105819; 3250441966; 4118548399; 1200080426;
   2821735955; 4249261313; 1770035416; 2336552879; 4294925233; 2304563134;
   1804603682; 4254626195; 2792965006; 1236535329; 4129170786; 3225465664;
   643717713; 3921069994; 3593408605; 38016083; 3634488961; 3889429448;
   568446438; 3275163606; 4107603335; 1163531501; 2850285829; 4243563512;
   1735328473; 2368359562; 4294588738; 2272392833; 1839030562; 4259657740;
   2763975236; 1272893353; 4139469664; 3200236656; 681279174; 3936430074;
   3572445317; 76029189; 3654602809; 3873151461; 530742520; 3299628645;
   4096336452; 1126891415; 2878612391; 4237533241; 1700485571; 2399980690;
   4293915773; 2240044497; 1873313359; 4264355552; 2734768916; 1309151649;
   4149444226; 3174756917; 718787259; 3951481745].

(** The 32-bit word of four bytes, least significant first. *)
Definition word_of_bytes (bs : list Z) : Z :=
  foldr (fun b w => b + 256 * w) 0 bs.

(** The four bytes of a 32-bit word, least significant first. *)
Definition bytes_of_word (w : Z) : list Z :=
  [w mod 256; (w / 256) mod 256; (w / 65536) mod 256; (w / 16777216) mod 256].

(** The eight bytes of the length in bits, least significant first. *)
Definition bytes_of_length (n : Z) : list Z :=
  map (fun k => (n / 2 ^ (8 * k)) mod 256) [0; 1; 2; 3; 4; 5; 6; 7].

(** The message with the bit 1, zero bits up to 56 modulo 64 bytes, and
    its length in bits. *)
Definition pad (msg : list Z) : list Z :=
  let n := Z.of_nat (length msg) in
  msg ++ [128] ++ replicate (Z.to_nat ((55 - n) mod 64)) 0 ++ bytes_of_length (8 * n).

(** [count] groups of [size] elements each. *)
Fixpoint groups {A} (size count : nat) (l : list A) : list (list A) :=
  match count with
  | O => []
  | S count' => take size l :: groups size count' (drop size l)
  end.

(** One of the 64 steps on the state [(a, b, c, d)] with the sixteen
    words [m] of the block. *)
Definition step (m : list Z) (s : Z * Z * Z * Z) (i : nat) : Z * Z * Z * Z :=
  let '(a, b, c, d) := s in
  let j := Z.of_nat i in
  let '(f, g) :=
    if j <? 16 then (Z.lor (Z.land b c) (Z.land (not32 b) d), j)
    else if j <? 32 then (Z.lor (Z.land d b) (Z.land (not32 d) c), (5 * j + 1) mod 16)
    else if j <? 48 then (Z.lxor (Z.lxor b c) d, (3 * j + 5) mod 16)
    else (Z.lxor c (Z.lor b (not32 d)), (7 * j) mod 16) in
  let f := add32 (add32 (add32 f a) (nth i sines 0)) (nth (Z.to_nat g) m 0) in
  (d, add32 b (rotl32 f (nth i shifts 0)), b, c).

(** One 64-byte block folded into the state. *)
Definition compress (s : Z * Z * Z * Z) (block : list Z) : Z * Z * Z * Z :=
  let m := map word_of_bytes (groups 4 16 block) in
  let '(a, b, c, d) := s in
  let '(a', b', c', d') := foldl (step m) s (seq 0 64) in
  (add32 a a', add32 b b', add32 c c', add32 d d').

Definition init : Z * Z * Z * Z := (1732584193, 4023233417, 2562383102, 271733878).

(** [hashlib.md5(msg).digest()]: sixteen bytes. *)
Definition digest (msg : list Z) : list Z :=
  let padded := pad msg in
  let '(a, b, c, d) := foldl compress init (groups 64 (length padded / 64) padded) in
  bytes_of_word a ++ bytes_of_word b ++ bytes_of_word c ++ bytes_of_word d.

(** A lower-case hexadecimal digit. *)
Definition hex_digit (v : Z) : N :=
  if v <? 10 then Z.to_N (48 + v) else Z.to_N (87 + v).

(** [.hexdigest()] *)
Definition hexdigest (msg : list Z) : list N :=
  concat (map (fun b => [hex_digit ((b / 16) mod 16); hex_digit (b mod 16)]) (digest msg)).

End Md5.

(** A surrogate code point, which UTF-8 cannot encode. *)
Definition is_surrogate (c : N) : bool := (55296 <=? c)%N && (c <=? 57343)%N.

(** The UTF-8 bytes of one code point (below U+110000). *)
Definition utf8_bytes (c : N) : list N :=
  (if c <? 128 then [c]
   else if c <? 2048 then [192 + c / 64; 128 + c mod 64]
   else if c <? 65536 then [224 + c / 4096; 128 + (c / 64) mod 64; 128 + c mod 64]
   else [240 + c / 262144; 128 + (c / 4096) mod 64; 128 + (c / 64) mod 64; 128 + c mod 64])%N.

Definition unicode_encode_error : exn :=
  {| exn_cls := OtherException "UnicodeEncodeError";
     exn_text := txt "'utf-8' codec can't encode character: surrogates not allowed" |}.

(** [s.encode()] *)
Definition encode_utf8 (s : list N) : exc (list N) :=
  if existsb is_surrogate s then Raise unicode_encode_error
  else Ok (concat (map utf8_bytes s)).

(** Source lines 25-28. *)
Definition generate_video_id (url : list N) : exc (list N) :=
  encoded <-! encode_utf8 url ;;
  Ok (take 12 (Md5.hexdigest (map Z.of_N encoded))).


(** ** More concrete inputs *)

(** A [GET] request with the given raw query string and no parsed
    arguments. *)
Definition get_query (q : string) : request :=
  {| method := GET;
     host_url := txt "http://localhost:5000/";
     query_string := txt q;
     args := ∅;
     json := JsonNone;
     headers := ∅ |}.

(** One parsed argument of a query string. *)
Definition arg (name value : string) : string * string := (name, value).

(** A [GET] request with the given raw query string and the arguments
    that Flask parses from it. *)
Definition get_parsed (q : string) (parsed : list (string * string)) : request :=
  {| method := GET;
     host_url := txt "http://localhost:5000/";
     query_string := txt q;
     args := list_to_map (map (fun kv => (txt (fst kv), txt (snd kv))) parsed);
     json := JsonNone;
     headers := ∅ |}.

(** A behaviour of [unicodedata.decimal]: no digit beyond ASCII. *)
Definition ascii_digits_only : N -> option N := fun _ => None.

(** * Properties *)

(** ** The identifier store *)

Lemma store_inv_initial : store_inv initial.
Proof.
  split; [done|]. intros k. cbn. rewrite lookup_empty. split.
  - by intros [? ?].
  - intros (n & _ & Hn). lia.
Qed.

Lemma store_video_url_fst url filename st :
  fst (store_video_url url filename st) = video_counter st.
Proof. reflexivity. Qed.

Lemma store_video_url_counter url filename st :
  video_counter (snd (store_video_url url filename st)) = (video_counter st + 1)%Z.
Proof. reflexivity. Qed.

Lemma store_video_url_lookup url filename st :
  video_storage (snd (store_video_url url filename st)) !! KInt (video_counter st)
  = Some {| vi_url := url; vi_filename := py_or filename default_filename |}.
Proof. cbn. apply lookup_insert_eq. Qed.

Lemma store_video_url_inv url filename st :
  store_inv st -> store_inv (snd (store_video_url url filename st)).
Proof.
  intros [Hc Hk]. split; cbn; [lia|].
  intros k. rewrite lookup_insert. case_decide as Hkey.
  - subst k. split; [|by eauto]. intros _. exists (video_counter st). split; [done|lia].
  - rewrite Hk. split.
    + intros (n & -> & Hn). exists n. split; [done|lia].
    + intros (n & -> & Hn). exists n. split; [done|].
      assert (n <> video_counter st) by congruence. lia.
Qed.

Lemma store_video_url_kept url filename st :
  store_inv st -> entries_kept st (snd (store_video_url url filename st)).
Proof.
  intros [_ Hk] k v Hv. cbn. rewrite lookup_insert_ne; [done|].
  intros <-. destruct (proj1 (Hk (KInt (video_counter st)))) as (n & [= <-] & Hn); [by eauto|lia].
Qed.

Lemma store_inv_no_str_key st s : store_inv st -> video_storage st !! KStr s = None.
Proof.
  intros [_ Hk]. destruct (video_storage st !! KStr s) eqn:E; [|done].
  destruct (proj1 (Hk (KStr s))) as (n & [=] & _). by rewrite E.
Qed.

Lemma entries_kept_refl st : entries_kept st st.
Proof. by intros k v. Qed.

Lemma entries_kept_trans st1 st2 st3 :
  entries_kept st1 st2 -> entries_kept st2 st3 -> entries_kept st1 st3.
Proof. intros H12 H23 k v Hv. by apply H23, H12. Qed.

Lemma allocate_all_from calls : forall st,
  fst (allocate_all calls st) = seqZ (video_counter st) (Z.of_nat (length calls))
  /\ video_counter (snd (allocate_all calls st)) = (video_counter st + Z.of_nat (length calls))%Z.
Proof.
  induction calls as [|[url filename] calls IH]; intros st.
  - cbn. split; [done|lia].
  - cbn [allocate_all].
    destruct (store_video_url url filename st) as [vid st1] eqn:E1.
    destruct (allocate_all calls st1) as [vids st2] eqn:E2.
    pose proof (IH st1) as [Hids Hc]. rewrite E2 in Hids, Hc.
    cbn [fst snd length] in Hids, Hc |- *.
    assert (vid = video_counter st) as -> by (by inversion E1).
    assert (video_counter st1 = (video_counter st + 1)%Z) as Hst1 by (by inversion E1).
    rewrite Hids, Hc, Hst1. split; [|lia].
    rewrite (seqZ_cons _ (Z.of_nat (S (length calls)))) by lia.
    f_equal. f_equal; lia.
Qed.

Lemma allocate_all_inv calls : forall st,
  store_inv st ->
  store_inv (snd (allocate_all calls st)) /\ entries_kept st (snd (allocate_all calls st)).
Proof.
  induction calls as [|[url filename] calls IH]; intros st Hinv.
  - split; [done|apply entries_kept_refl].
  - cbn [allocate_all].
    destruct (store_video_url url filename st) as [vid st1] eqn:E1.
    destruct (allocate_all calls st1) as [vids st2] eqn:E2.
    assert (st1 = snd (store_video_url url filename st)) as Hst1 by (by rewrite E1).
    destruct (IH st1) as [Hinv2 Hkept2].
    { subst st1. by apply store_video_url_inv. }
    rewrite E2 in Hinv2, Hkept2. cbn in *. split; [done|].
    eapply entries_kept_trans; [|exact Hkept2].
    subst st1. by apply store_video_url_kept.
Qed.

(** ** The process keeps the store's shape *)

Section Process.

Variable check_bracketed_host : list N -> bool.
Variable checknetloc_nfkc : list N -> bool.
Variable requests_get : outbound -> exc upstream.

Local Abbreviation shorten' := (shorten check_bracketed_host checknetloc_nfkc).
Local Abbreviation serve' := (serve check_bracketed_host checknetloc_nfkc requests_get).
Local Abbreviation run' := (run check_bracketed_host checknetloc_nfkc requests_get).

Lemma shorten_state req st r st' :
  shorten' req st = Ok (r, st') ->
  st' = st \/ exists url filename, st' = snd (store_video_url url filename st).
Proof.
  unfold shorten. intros H.
  destruct (match method req with POST => _ | GET => _ end) as [posted|]; cbn in H; [|done].
  destruct (if negb (truthy posted.1) then _ else _) as [chosen|]; cbn in H; [|done].
  destruct (negb (truthy chosen.1)); [left; congruence|].
  destruct (negb (validate_url _ _ _)); [left; congruence|].
  right. exists chosen.1, chosen.2. by inversion H.
Qed.

Lemma serve_state c st :
  snd (serve' c st) = st
  \/ exists url filename, snd (serve' c st) = snd (store_video_url url filename st).
Proof.
  destruct c as [req| | | |]; cbn; try by left.
  destruct (shorten' req st) as [[r st']|] eqn:E; cbn; [|by left].
  by apply shorten_state in E.
Qed.

Lemma serve_inv c st :
  store_inv st -> store_inv (snd (serve' c st)) /\ entries_kept st (snd (serve' c st)).
Proof.
  intros Hinv. destruct (serve_state c st) as [->|(url & filename & ->)].
  - split; [done|apply entries_kept_refl].
  - split; [by apply store_video_url_inv|by apply store_video_url_kept].
Qed.

Lemma run_inv history : forall st,
  store_inv st -> store_inv (run' history st) /\ entries_kept st (run' history st).
Proof.
  induction history as [|c history IH]; intros st Hinv.
  - split; [done|apply entries_kept_refl].
  - destruct (serve_inv c st Hinv) as [Hinv1 Hkept1].
    destruct (IH _ Hinv1) as [Hinv2 Hkept2]. split; [exact Hinv2|].
    eapply entries_kept_trans; [exact Hkept1|exact Hkept2].
Qed.

Lemma run_reachable_inv history : store_inv (run' history initial).
Proof. apply run_inv, store_inv_initial. Qed.

(** C10: a call of [store_video_url] keeps every entry that was stored
    before, after any sequence of allocations and after any history of
    requests; so does every request served and every later history; and
    every key of the store is an integer from 1 up to, and strictly below,
    the counter. *)
Theorem stored_videos_are_kept (calls : list (pyval * pyval)) (history : list call) :
  let allocated := snd (allocate_all calls initial) in
  let st := run' history initial in
  (forall url filename,
      entries_kept allocated (snd (store_video_url url filename allocated))
      /\ entries_kept st (snd (store_video_url url filename st)))
  /\ (forall c, entries_kept st (snd (serve' c st)))
  /\ (forall later, entries_kept st (run' later st))
  /\ (forall k, is_Some (video_storage allocated !! k) ->
                exists n, k = KInt n /\ (1 <= n < video_counter allocated)%Z)
  /\ (forall k, is_Some (video_storage st !! k) ->
                exists n, k = KInt n /\ (1 <= n < video_counter st)%Z).
Proof.
  cbv zeta.
  destruct (allocate_all_inv calls initial store_inv_initial) as [Hinv_a _].
  pose proof (run_reachable_inv history) as Hinv.
  repeat split.
  - by apply store_video_url_kept.
  - by apply store_video_url_kept.
  - intros c. by apply serve_inv.
  - intros later. by apply run_inv.
  - intros k. apply Hinv_a.
  - intros k. apply Hinv.
Qed.

(** C3: an identifier that [store_video_url] returns, after any history
    of requests and whatever requests follow, is an integer key of the
    store, while the text of it that the route [/cdn/<video_id>] passes on
    is not a key: [GET /cdn/n] answers 404 "Video not found" and calls no
    upstream. *)
Theorem cdn_misses_every_allocated_id
  (history later : list call) (url filename : pyval) (req : request) :
  let st0 := run' history initial in
  let vid := fst (store_video_url url filename st0) in
  let st := run' later (snd (store_video_url url filename st0)) in
  is_Some (video_storage st !! KInt vid)
  /\ video_storage st !! KStr (str_of_int vid) = None
  /\ stream_video requests_get (str_of_int vid) req st
     = (Ok (jsonify [field "error" (PStr (txt "Video not found"))] 404), []).
Proof.
  cbv zeta. pose proof (run_reachable_inv history) as Hinv.
  pose proof (store_video_url_inv url filename _ Hinv) as Hinv1.
  destruct (run_inv later _ Hinv1) as [Hinv2 Hkept].
  pose proof (store_inv_no_str_key _ (str_of_int (video_counter (run' history initial))) Hinv2)
    as Hnone.
  rewrite store_video_url_fst. split; [|split].
  - rewrite (Hkept _ _ (store_video_url_lookup url filename _)). by eexists.
  - exact Hnone.
  - unfold stream_video. by rewrite Hnone.
Qed.

(** After any history of requests, [GET /cdn/<video_id>] answers 404
    for every path segment, and never calls the upstream. *)
Theorem cdn_always_answers_not_found (history : list call) (video_id : list N) (req : request) :
  stream_video requests_get video_id req (run' history initial)
  = (Ok (jsonify [field "error" (PStr (txt "Video not found"))] 404), []).
Proof.
  unfold stream_video.
  by rewrite (store_inv_no_str_key _ video_id (run_reachable_inv history)).
Qed.

(** C5: the identifier that [store_video_url] returns for [url] resolves,
    on the player path and after any later requests, to the player page
    that carries [url]; an identifier that was never handed out (none
    below 1, none from the counter on) resolves to the page with the
    fixed address and the label "Expired", a page with status 200. *)
Theorem player_resolves_or_expires
  (history later : list call) (url filename : pyval) (name : list N) :
  let st := run' history initial in
  let vid := fst (store_video_url url filename st) in
  let st1 := snd (store_video_url url filename st) in
  download_or_play name vid (run' later st1)
  = render_template "player.html"
      [field "video_url" url; field "original_url" url;
       field "filename" (py_or (PStr name) (py_or filename default_filename))]
  /\ (forall id, (id < 1 \/ video_counter st <= id)%Z ->
        download_or_play name id st
        = render_template "player.html"
            [field "video_url" expired_url; field "original_url" expired_url;
             field "filename" (PStr (txt "Expired"))]
        /\ status (download_or_play name id st) = 200%Z).
Proof.
  cbv zeta. pose proof (run_reachable_inv history) as Hinv. split.
  - pose proof (store_video_url_inv url filename _ Hinv) as Hinv1.
    destruct (run_inv later _ Hinv1) as [_ Hkept].
    unfold download_or_play. rewrite store_video_url_fst.
    by rewrite (Hkept _ _ (store_video_url_lookup url filename _)).
  - intros id Hid. unfold download_or_play.
    destruct (video_storage _ !! KInt id) eqn:E; [|done].
    destruct Hinv as [_ Hk].
    destruct (proj1 (Hk (KInt id))) as (m & [= <-] & Hm); [by rewrite E|lia].
Qed.

End Process.

(** C2: the identifiers returned by [N] calls of [store_video_url] on a
    fresh store are 1, 2, ..., [N] in call order, without repetition, and
    the counter ends at [N + 1]; from any state, a call returns the counter
    and moves it up by exactly one. *)
Theorem allocated_ids_count_up (calls : list (pyval * pyval)) :
  fst (allocate_all calls initial) = seqZ 1 (Z.of_nat (length calls))
  /\ NoDup (fst (allocate_all calls initial))
  /\ video_counter (snd (allocate_all calls initial)) = (1 + Z.of_nat (length calls))%Z
  /\ (forall url filename st,
        fst (store_video_url url filename st) = video_counter st
        /\ video_counter (snd (store_video_url url filename st)) = (video_counter st + 1)%Z).
Proof.
  destruct (allocate_all_from calls initial) as [Hids Hc]. cbn in Hids, Hc.
  rewrite Hids, Hc. repeat split. apply NoDup_seqZ.
Qed.

(** C6: when the identifier is not a key of the store, [stream_video]
    answers 404 with the JSON error and calls no upstream, whatever the
    upstream would have done. *)
Theorem stream_unknown_id_is_not_found
  (requests_get : outbound -> exc upstream) (video_id : list N) (req : request) (st : state) :
  video_storage st !! KStr video_id = None ->
  stream_video requests_get video_id req st
  = (Ok (jsonify [field "error" (PStr (txt "Video not found"))] 404), [])
  /\ status (jsonify [field "error" (PStr (txt "Video not found"))] 404) = 404%Z.
Proof.
  intros Hnone. unfold stream_video. by rewrite Hnone.
Qed.

(** ** The header maps of the streaming proxy *)

(** Two header names spelled differently are different keys. *)
Ltac key_ne :=
  let H := fresh in intros H; vm_compute in H; discriminate H.

Ltac lookup_headers :=
  unfold list_to_map; cbn [foldr fst snd];
  repeat first
    [ rewrite lookup_insert_eq
    | rewrite lookup_insert_ne by key_ne
    | rewrite lookup_empty ].

Lemma outbound_headers_range req :
  outbound_headers req !! txt "Range"
  = match headers req !! txt "Range" with
    | Some r => if truthy (PStr r) then Some r else None
    | None => None
    end.
Proof.
  unfold outbound_headers.
  destruct (headers req !! txt "Range") as [r|]; [destruct (truthy (PStr r))|];
    by lookup_headers.
Qed.

Lemma relay_headers resp :
  resp_headers (relay resp) !! txt "Content-Type"
  = Some (default (txt "video/mp4") (up_headers resp !! txt "Content-Type"))
  /\ resp_headers (relay resp) !! txt "Accept-Ranges" = Some (txt "bytes")
  /\ resp_headers (relay resp) !! txt "Cache-Control" = Some (txt "public, max-age=3600")
  /\ resp_headers (relay resp) !! txt "Content-Length"
     = match up_headers resp !! txt "Content-Length" with
       | Some v => if truthy (PStr v) then Some v else None
       | None => None
       end
  /\ resp_headers (relay resp) !! txt "Content-Range" = up_headers resp !! txt "Content-Range".
Proof.
  unfold relay; cbn [resp_headers].
  destruct (up_headers resp !! txt "Content-Length") as [cl|];
    [destruct (truthy (PStr cl))|];
    (destruct (up_headers resp !! txt "Content-Range") as [cr|]);
    repeat split; by lookup_headers.
Qed.

(** Whatever the store, the request and the upstream, one request to
    [/cdn/<video_id>] makes at most one call to the upstream. *)
Theorem stream_video_calls_at_most_once
  (requests_get : outbound -> exc upstream) (video_id : list N) (req : request) (st : state) :
  (length (snd (stream_video requests_get video_id req st)) <= 1)%nat.
Proof.
  unfold stream_video. destruct (video_storage st !! KStr video_id); [|cbn; lia].
  destruct (requests_get _) as [resp|e]; [cbn; lia|].
  destruct (is_request_exception e); cbn; lia.
Qed.

(** C1: the scenario evaluated.  [POST /shorten] with the body
    [{"url": "http://example.com/v.mp4"}] on a fresh store succeeds with
    [video_id = 1] and the link [http://localhost:5000/cdn/1]; the
    following [GET /cdn/1], against an upstream that would answer 206 with
    the body [abcd], answers 404 "Video not found" and never calls it. *)
Theorem shorten_then_cdn_is_not_found (check_bracketed_host checknetloc_nfkc : list N -> bool) :
  exists r st1,
    shorten check_bracketed_host checknetloc_nfkc (post_url "http://example.com/v.mp4") initial
    = Ok (r, st1)
    /\ status r = 200%Z
    /\ (exists fields, content r = Json fields
          /\ fields !! txt "success" = Some (PBool true)
          /\ fields !! txt "video_id" = Some (PInt 1)
          /\ fields !! txt "cdn_url" = Some (PStr (txt "http://localhost:5000/cdn/1")))
    /\ video_storage st1 !! KInt 1 = Some sample_info
    /\ stream_video upstream_206 (txt "1") (bare_request GET) st1
       = (Ok (jsonify [field "error" (PStr (txt "Video not found"))] 404), []).
Proof.
  eexists _, _. split; [vm_compute; reflexivity|].
  split; [reflexivity|]. split; [|split; vm_compute; reflexivity].
  eexists. split; [reflexivity|]. by vm_compute.
Qed.

(** ** The streaming proxy on the identifiers that were handed out *)

Section Allocated.

Variable check_bracketed_host : list N -> bool.
Variable checknetloc_nfkc : list N -> bool.
Variable requests_get : outbound -> exc upstream.

Local Abbreviation run' := (run check_bracketed_host checknetloc_nfkc requests_get).

(** The store after an identifier was handed out, whatever came before
    and after: the identifier is an integer key, its text is no key. *)
Lemma allocated_id_keys (history later : list call) (url filename : pyval) :
  let st0 := run' history initial in
  let vid := fst (store_video_url url filename st0) in
  let st := run' later (snd (store_video_url url filename st0)) in
  is_Some (video_storage st !! KInt vid)
  /\ video_storage st !! KStr (str_of_int vid) = None.
Proof.
  cbv zeta. pose proof (run_reachable_inv check_bracketed_host checknetloc_nfkc requests_get
                          history) as Hinv.
  pose proof (store_video_url_inv url filename _ Hinv) as Hinv1.
  destruct (run_inv check_bracketed_host checknetloc_nfkc requests_get later _ Hinv1)
    as [Hinv2 Hkept].
  rewrite store_video_url_fst. split.
  - rewrite (Hkept _ _ (store_video_url_lookup url filename _)). by eexists.
  - by apply store_inv_no_str_key.
Qed.

(** C7: the claim fails on the code.  [GET /cdn/<id>] with
    [Range: bytes=0-99], for an identifier that [store_video_url] handed
    out (after any history, whatever requests follow, whatever the
    upstream), answers 404 and makes no call: the header is forwarded
    nowhere.  So it is in the scenario: [POST /shorten], then [GET /cdn/1]
    with the header. *)
Theorem allocated_id_range_is_not_forwarded
  (history later : list call) (url filename : pyval) :
  let st0 := run' history initial in
  let vid := fst (store_video_url url filename st0) in
  let st := run' later (snd (store_video_url url filename st0)) in
  let req := get_with [header "Range" "bytes=0-99"] in
  headers req !! txt "Range" = Some (txt "bytes=0-99")
  /\ is_Some (video_storage st !! KInt vid)
  /\ stream_video requests_get (str_of_int vid) req st
     = (Ok (jsonify [field "error" (PStr (txt "Video not found"))] 404), [])
  /\ exists r st1,
      shorten check_bracketed_host checknetloc_nfkc (post_url "http://example.com/v.mp4") initial
      = Ok (r, st1)
      /\ video_id_of (Ok r) = Some 1%Z
      /\ stream_video requests_get (txt "1") req st1
         = (Ok (jsonify [field "error" (PStr (txt "Video not found"))] 404), []).
Proof.
  cbv zeta. destruct (allocated_id_keys history later url filename) as [Hint Hnone].
  split; [vm_compute; reflexivity|]. split; [exact Hint|]. split.
  - unfold stream_video. by rewrite Hnone.
  - eexists _, _. split; [vm_compute; reflexivity|]. split; vm_compute; reflexivity.
Qed.

(** C8: the claim fails on the code.  Whatever the upstream would answer
    (any status, any headers, any body), [GET /cdn/<id>] for an identifier
    that [store_video_url] handed out answers 404 with the JSON error, no
    header and no body of the upstream, and makes no call: nothing is
    relayed.  So it is in the scenario, against an upstream that would
    answer 206 with [Content-Type], [Content-Length] and [Content-Range]. *)
Theorem allocated_id_relays_nothing
  (history later : list call) (url filename : pyval) (req : request)
  (code : Z) (hs : list (string * string)) (chunks : list (list N)) :
  let st0 := run' history initial in
  let vid := fst (store_video_url url filename st0) in
  let st := run' later (snd (store_video_url url filename st0)) in
  is_Some (video_storage st !! KInt vid)
  /\ (exists r,
        stream_video (upstream_answers code hs chunks) (str_of_int vid) req st = (Ok r, [])
        /\ status r = 404%Z
        /\ resp_headers r = ∅
        /\ content r = Json {[ txt "error" := PStr (txt "Video not found") ]})
  /\ exists r st1,
      shorten check_bracketed_host checknetloc_nfkc (post_url "http://example.com/v.mp4") initial
      = Ok (r, st1)
      /\ video_id_of (Ok r) = Some 1%Z
      /\ stream_video
           (upstream_answers 206
              [header "Content-Type" "video/webm"; header "Content-Length" "4";
               header "Content-Range" "bytes 0-3/10"]
              [txt "abcd"])
           (txt "1") (bare_request GET) st1
         = (Ok (jsonify [field "error" (PStr (txt "Video not found"))] 404), []).
Proof.
  cbv zeta. destruct (allocated_id_keys history later url filename) as [Hint Hnone].
  split; [exact Hint|]. split.
  - eexists. unfold stream_video. rewrite Hnone. split; [reflexivity|].
    split; [reflexivity|]. split; [reflexivity|]. vm_compute. reflexivity.
  - eexists _, _. split; [vm_compute; reflexivity|]. split; vm_compute; reflexivity.
Qed.

(** C9: the claim fails on the code.  When the upstream cannot be
    reached (the client would raise a [RequestException] of any kind, a
    timeout among them), [GET /cdn/<id>] for an identifier that
    [store_video_url] handed out still answers 404 "Video not found", not
    500, and the number of attempts is zero, not one.  So it is in the
    scenario, against an upstream that times out. *)
Theorem allocated_id_never_reaches_the_upstream
  (history later : list call) (url filename : pyval) (req : request) (kind text : string) :
  let st0 := run' history initial in
  let vid := fst (store_video_url url filename st0) in
  let st := run' later (snd (store_video_url url filename st0)) in
  is_Some (video_storage st !! KInt vid)
  /\ stream_video (upstream_fails kind text) (str_of_int vid) req st
     = (Ok (jsonify [field "error" (PStr (txt "Video not found"))] 404), [])
  /\ length (snd (stream_video (upstream_fails kind text) (str_of_int vid) req st)) = 0%nat
  /\ exists r st1,
      shorten check_bracketed_host checknetloc_nfkc (post_url "http://example.com/v.mp4") initial
      = Ok (r, st1)
      /\ video_id_of (Ok r) = Some 1%Z
      /\ stream_video (upstream_fails "ConnectTimeout" "timed out") (txt "1")
           (bare_request GET) st1
         = (Ok (jsonify [field "error" (PStr (txt "Video not found"))] 404), []).
Proof.
  cbv zeta. destruct (allocated_id_keys history later url filename) as [Hint Hnone].
  split; [exact Hint|].
  assert (stream_video (upstream_fails kind text)
            (str_of_int (fst (store_video_url url filename (run' history initial)))) req
            (run' later (snd (store_video_url url filename (run' history initial))))
          = (Ok (jsonify [field "error" (PStr (txt "Video not found"))] 404), [])) as Hdead.
  { unfold stream_video. by rewrite Hnone. }
  split; [exact Hdead|]. split; [by rewrite Hdead|].
  eexists _, _. split; [vm_compute; reflexivity|]. split; vm_compute; reflexivity.
Qed.

End Allocated.

(** ** The URL validator *)

Section Decoding.

Import Urllib.
Local Open Scope N_scope.

Lemma utf8_scan_ascii_cons c bs :
  is_ascii c = true -> utf8_scan (c :: bs) = Some c :: utf8_scan bs.
Proof. unfold is_ascii. intros Hc. cbn [utf8_scan]. by rewrite Hc. Qed.

Lemma decode_replace_ascii_app p bs :
  Forall (fun c => is_ascii c = true) p -> decode_replace (p ++ bs) = p ++ decode_replace bs.
Proof.
  unfold decode_replace. induction 1 as [|c p Hc _ IH]; [done|].
  rewrite <- app_comm_cons, utf8_scan_ascii_cons by done. cbn [map]. by rewrite IH.
Qed.

Lemma unquote_to_bytes_plain_cons c s :
  c <> percent -> unquote_to_bytes (c :: s) = c :: unquote_to_bytes s.
Proof.
  intros Hc. cbn [unquote_to_bytes].
  by rewrite (proj2 (N.eqb_neq c percent) Hc).
Qed.

Lemma unquote_to_bytes_plain_app p s :
  Forall plain p -> unquote_to_bytes (p ++ s) = p ++ unquote_to_bytes s.
Proof.
  induction 1 as [|c p [_ Hc] _ IH]; [done|].
  rewrite <- app_comm_cons, unquote_to_bytes_plain_cons by done. by rewrite IH.
Qed.

Lemma flush_plain_prefix q x :
  Forall plain q ->
  decode_replace (unquote_to_bytes (q ++ x)) = q ++ decode_replace (unquote_to_bytes x).
Proof.
  intros Hq. rewrite unquote_to_bytes_plain_app by done.
  apply decode_replace_ascii_app. eapply Forall_impl; [exact Hq|]. by intros c [? _].
Qed.

(** Whatever follows, the plain characters already in the run come out
    first and unchanged. *)
Lemma unquote_runs_keeps_run s : forall run q x,
  rev run = q ++ x -> Forall plain q -> exists t, unquote_runs s run = q ++ t.
Proof.
  induction s as [|c s IH]; intros run q x Hrun Hq; cbn [unquote_runs].
  - rewrite Hrun, flush_plain_prefix by done. by eexists.
  - destruct (is_ascii c).
    + apply (IH (c :: run) q (x ++ [c])); [|done].
      cbn [rev]. by rewrite Hrun, <- app_assoc.
    + rewrite Hrun, flush_plain_prefix by done. rewrite <- app_assoc. by eexists.
Qed.

Lemma unquote_runs_push p : forall s run,
  Forall plain p -> unquote_runs (p ++ s) run = unquote_runs s (rev p ++ run).
Proof.
  induction p as [|c p IH]; intros s run Hp; [done|].
  inversion Hp as [|? ? [Hc _] Hp']; subst.
  rewrite <- app_comm_cons. cbn [unquote_runs]. rewrite Hc, IH by done.
  cbn [rev]. by rewrite <- app_assoc.
Qed.

Lemma mem_plain_false p : Forall plain p -> mem percent p = false.
Proof.
  induction 1 as [|c p [_ Hc] _ IH]; [done|].
  unfold mem in *. cbn [existsb]. rewrite IH. unfold eqc.
  by rewrite (proj2 (N.eqb_neq percent c)) by congruence.
Qed.

(** [unquote] keeps a prefix of plain characters, and a text made of
    plain characters altogether. *)
Lemma unquote_str_plain_prefix p s :
  Forall plain p -> exists t, unquote_str (p ++ s) = p ++ t /\ (s = [] -> t = []).
Proof.
  intros Hp. unfold unquote_str. destruct (mem percent (p ++ s)) eqn:Hmem.
  - rewrite unquote_runs_push by done.
    destruct (unquote_runs_keeps_run s (rev p ++ []) p []) as [t Ht]; [|done|].
    { by rewrite app_nil_r, rev_involutive, app_nil_r. }
    exists t. split; [done|]. intros ->. rewrite app_nil_r in Hmem.
    by rewrite mem_plain_false in Hmem.
  - by exists s.
Qed.

End Decoding.

Section Splitting.

Import Urllib.
Local Open Scope N_scope.

Variable check_bracketed_host : list N -> bool.
Variable checknetloc_nfkc : list N -> bool.

Local Abbreviation urlsplit' := (urlsplit check_bracketed_host checknetloc_nfkc).
Local Abbreviation safe := (fun c : N => negb (unsafe_byte c)).

Lemma netloc_char_facts c :
  netloc_char c = true ->
  plain c /\ unsafe_byte c = false /\ netloc_delim c = false
  /\ eqc lbracket c = false /\ eqc rbracket c = false.
Proof.
  unfold netloc_char, plain, is_ascii, unsafe_byte, netloc_delim, eqc,
    percent, slash, question, hash, lbracket, rbracket.
  rewrite !andb_true_iff, !negb_true_iff, !orb_false_iff, !N.eqb_neq, !N.ltb_lt.
  lia.
Qed.

Lemma netloc_delim_facts c :
  netloc_delim c = true -> plain c /\ unsafe_byte c = false.
Proof.
  unfold netloc_delim, plain, is_ascii, unsafe_byte, percent, slash, question, hash.
  rewrite !orb_true_iff, !orb_false_iff, !N.eqb_eq, !N.eqb_neq, N.ltb_lt. lia.
Qed.

Lemma break_app (p : N -> bool) a tail :
  Forall (fun c => p c = false) a ->
  match tail with [] => True | c :: _ => p c = true end ->
  break p (a ++ tail) = (a, tail).
Proof.
  intros Ha Htail. induction Ha as [|c a Hc _ IH]; cbn [app break].
  - destruct tail as [|c tail]; [done|]. cbn [break]. by rewrite Htail.
  - by rewrite Hc, IH.
Qed.

Lemma mem_absent x a : Forall (fun c => eqc x c = false) a -> mem x a = false.
Proof.
  unfold mem. induction 1 as [|c a Hc _ IH]; [done|]. cbn [existsb]. by rewrite Hc, IH.
Qed.

Lemma filter_safe_id a : Forall (fun c => unsafe_byte c = false) a -> filter safe a = a.
Proof.
  induction 1 as [|c a Hc _ IH]; [done|].
  rewrite filter_cons_True by (by rewrite Hc). by rewrite IH.
Qed.

Lemma forallb_Forall_true (f : N -> bool) a :
  forallb f a = true <-> Forall (fun c => f c = true) a.
Proof.
  induction a as [|c a IH]; cbn [forallb].
  - split; [by constructor|done].
  - rewrite andb_true_iff, Forall_cons. by rewrite IH.
Qed.

(** The parse of a text of the shape [scheme://authority] followed by
    nothing or by a path, a query or a fragment. *)
Lemma urlsplit_http sch authority tail :
  sch = txt "http" \/ sch = txt "https" ->
  forallb netloc_char authority = true ->
  begins_path tail = true ->
  urlsplit' (sch ++ txt "://" ++ authority ++ tail)
  = Ok {| scheme := sch; netloc := authority; rest := filter safe tail |}.
Proof.
  intros Hsch Hauth%forallb_Forall_true Htail.
  assert (Forall (fun c => unsafe_byte c = false) authority) as Hsafe.
  { eapply Forall_impl; [exact Hauth|]. intros c Hc. by apply netloc_char_facts in Hc as (_&?&_). }
  assert (Forall (fun c => netloc_delim c = false) authority) as Hdelim.
  { eapply Forall_impl; [exact Hauth|]. intros c Hc. by apply netloc_char_facts in Hc as (_&_&?&_). }
  assert (mem lbracket authority = false) as Hlb.
  { apply mem_absent. eapply Forall_impl; [exact Hauth|]. intros c Hc.
    by apply netloc_char_facts in Hc as (_&_&_&?&_). }
  assert (mem rbracket authority = false) as Hrb.
  { apply mem_absent. eapply Forall_impl; [exact Hauth|]. intros c Hc.
    by apply netloc_char_facts in Hc as (_&_&_&_&?). }
  assert (forallb is_ascii authority = true) as Hascii.
  { apply forallb_Forall_true. eapply Forall_impl; [exact Hauth|]. intros c Hc.
    by apply netloc_char_facts in Hc as ([? _]&_). }
  assert (filter safe (authority ++ tail) = authority ++ filter safe tail) as Hfilter.
  { by rewrite filter_app, filter_safe_id. }
  assert (break netloc_delim (authority ++ filter safe tail) = (authority, filter safe tail))
    as Hbreak.
  { apply break_app; [done|]. destruct tail as [|c tail]; [done|]. cbn in Htail.
    apply netloc_delim_facts in Htail as Hc. destruct Hc as [_ Hc].
    rewrite filter_cons_True by (by rewrite Hc). done. }
  unfold urlsplit.
  destruct Hsch as [-> | ->].
  - change (lstrip c0_or_space (txt "http" ++ txt "://" ++ authority ++ tail))
      with (txt "http://" ++ (authority ++ tail)).
    change (filter safe (txt "http://" ++ (authority ++ tail)))
      with (txt "http://" ++ filter safe (authority ++ tail)).
    rewrite Hfilter.
    change (split_scheme (txt "http://" ++ authority ++ filter safe tail))
      with (txt "http", txt "//" ++ (authority ++ filter safe tail)).
    cbv iota beta.
    change (split_netloc (txt "//" ++ (authority ++ filter safe tail)))
      with (break netloc_delim (authority ++ filter safe tail)).
    rewrite Hbreak. cbv iota beta. by rewrite Hlb, Hrb, Hascii.
  - change (lstrip c0_or_space (txt "https" ++ txt "://" ++ authority ++ tail))
      with (txt "https://" ++ (authority ++ tail)).
    change (filter safe (txt "https://" ++ (authority ++ tail)))
      with (txt "https://" ++ filter safe (authority ++ tail)).
    rewrite Hfilter.
    change (split_scheme (txt "https://" ++ authority ++ filter safe tail))
      with (txt "https", txt "//" ++ (authority ++ filter safe tail)).
    cbv iota beta.
    change (split_netloc (txt "//" ++ (authority ++ filter safe tail)))
      with (break netloc_delim (authority ++ filter safe tail)).
    rewrite Hbreak. cbv iota beta. by rewrite Hlb, Hrb, Hascii.
Qed.

End Splitting.

Section Validator.

Import Urllib.
Local Open Scope N_scope.

Variable check_bracketed_host : list N -> bool.
Variable checknetloc_nfkc : list N -> bool.

Local Abbreviation validate_url' := (validate_url check_bracketed_host checknetloc_nfkc).
Local Abbreviation urlparse' := (urlparse check_bracketed_host checknetloc_nfkc).

Lemma plain_scheme_prefix sch :
  sch = txt "http" \/ sch = txt "https" -> Forall plain (sch ++ txt "://").
Proof.
  intros [-> | ->]; repeat (constructor; [split; [reflexivity|discriminate]|]); constructor.
Qed.

Lemma plain_netloc authority :
  forallb netloc_char authority = true -> Forall plain authority.
Proof.
  intros H%forallb_Forall_true. eapply Forall_impl; [exact H|].
  intros c Hc. by apply netloc_char_facts in Hc as (?&_).
Qed.

(** Decoding keeps the scheme and the network location of such a text,
    and what follows still begins a path, a query or a fragment. *)
Lemma unquote_str_http sch authority rest :
  sch = txt "http" \/ sch = txt "https" ->
  forallb netloc_char authority = true ->
  begins_path rest = true ->
  exists tail,
    unquote_str (sch ++ txt "://" ++ authority ++ rest) = sch ++ txt "://" ++ authority ++ tail
    /\ begins_path tail = true.
Proof.
  intros Hsch Hauth Hrest.
  assert (Forall plain ((sch ++ txt "://") ++ authority)) as Hp.
  { apply Forall_app. split; [by apply plain_scheme_prefix|by apply plain_netloc]. }
  destruct rest as [|c rest].
  - destruct (unquote_str_plain_prefix _ [] Hp) as (t & Ht & Hnil).
    exists []. split; [|done]. rewrite (Hnil eq_refl) in Ht.
    by rewrite <- !app_assoc in Ht.
  - cbn in Hrest. apply netloc_delim_facts in Hrest as Hc. destruct Hc as [Hc _].
    assert (Forall plain (((sch ++ txt "://") ++ authority) ++ [c])) as Hpc.
    { apply Forall_app. split; [done|]. by apply Forall_cons. }
    destruct (unquote_str_plain_prefix _ rest Hpc) as (t & Ht & _).
    exists (c :: t). split; [|done].
    rewrite <- !app_assoc in Ht. exact Ht.
Qed.

Lemma validate_url_true_iff url :
  validate_url' url = true <->
  exists parsed,
    (decoded <-! unquote url ;; urlparse' decoded) = Ok parsed
    /\ (scheme parsed = txt "http" \/ scheme parsed = txt "https")
    /\ netloc parsed <> [].
Proof.
  unfold validate_url.
  destruct (decoded <-! unquote url ;; urlparse' decoded) as [parsed|e]; cycle 1.
  { split; [done|]. by intros (? & ? & _). }
  split.
  - intros H. exists parsed. split; [done|].
    destruct (bool_decide _) eqn:Hs; [|done].
    apply bool_decide_eq_true in Hs.
    destruct (netloc parsed) eqn:Hn; [done|]. split; [|done].
    rewrite !elem_of_cons, elem_of_nil in Hs. tauto.
  - intros (? & [= <-] & Hs & Hn).
    rewrite bool_decide_eq_true_2 by (rewrite !elem_of_cons; tauto).
    by destruct (netloc parsed).
Qed.

(** C4, amended: [validate_url] accepts every text made of the scheme
    [http] or [https], [://], a non-empty network location of plain
    characters, and nothing or a path, a query or a fragment after it, and
    more generally every value whose decoded parse has the scheme [http]
    or [https] and a non-empty network location; it rejects every value
    whose decoded parse has another scheme or none, or an empty network
    location (the network location, not the host inside it); and when
    decoding or parsing raises, it returns [False]. *)
Theorem validate_url_accepts_and_rejects :
  (forall sch authority rest,
      sch = txt "http" \/ sch = txt "https" ->
      authority <> [] ->
      forallb netloc_char authority = true ->
      begins_path rest = true ->
      validate_url' (PStr (sch ++ txt "://" ++ authority ++ rest)) = true)
  /\ (forall url parsed,
        (decoded <-! unquote url ;; urlparse' decoded) = Ok parsed ->
        scheme parsed = txt "http" \/ scheme parsed = txt "https" ->
        netloc parsed <> [] ->
        validate_url' url = true)
  /\ (forall url parsed,
        (decoded <-! unquote url ;; urlparse' decoded) = Ok parsed ->
        ~ (scheme parsed = txt "http" \/ scheme parsed = txt "https")
        \/ netloc parsed = [] ->
        validate_url' url = false)
  /\ (forall url e,
        (decoded <-! unquote url ;; urlparse' decoded) = Raise e ->
        validate_url' url = false).
Proof.
  split; [|split; [|split]].
  - intros sch authority rest Hsch Hne Hauth Hrest.
    apply validate_url_true_iff.
    destruct (unquote_str_http sch authority rest Hsch Hauth Hrest) as (tail & Hdec & Htail).
    eexists. split; [|split].
    + cbn [unquote exc_bind]. rewrite Hdec. unfold urlparse.
      by apply urlsplit_http.
    + exact Hsch.
    + exact Hne.
  - intros url parsed Hparse Hs Hn. apply validate_url_true_iff. by exists parsed.
  - intros url parsed Hparse Hbad.
    destruct (validate_url' url) eqn:Hv; [|done].
    apply validate_url_true_iff in Hv as (parsed' & Hparse' & Hs & Hn).
    rewrite Hparse in Hparse'. injection Hparse' as <-. by destruct Hbad.
  - intros url e Hraise. unfold validate_url. by rewrite Hraise.
Qed.

(** [GET /shorten?url=ftp://bad] answers 400 with [success: false] and
    leaves the store as it was. *)
Theorem shorten_rejects_ftp (st : state) :
  let req := {| method := GET;
                host_url := txt "http://localhost:5000/";
                query_string := txt "url=ftp://bad";
                args := {[ txt "url" := txt "ftp://bad" ]};
                json := JsonNone;
                headers := ∅ |} in
  shorten check_bracketed_host checknetloc_nfkc req st
  = Ok (jsonify [field "success" (PBool false); field "error" (PStr (txt "Invalid URL."))] 400,
        st).
Proof. reflexivity. Qed.

End Validator.

(** ** The statements at concrete inputs *)

(** A store without the key, and the answer of the proxy. *)
Lemma stream_unknown_id_example :
  video_storage initial !! KStr (txt "7") = None
  /\ stream_video upstream_206 (txt "7") (bare_request GET) initial
     = (Ok (jsonify [field "error" (PStr (txt "Video not found"))] 404), []).
Proof.
  split; [reflexivity|].
  apply (stream_unknown_id_is_not_found upstream_206 (txt "7") (bare_request GET) initial).
  reflexivity.
Defined.

(** An identifier that was never handed out, on a fresh store; and the
    first identifier, after the request that issued it. *)
Lemma player_example :
  download_or_play (txt "clip.mp4") 1
    (run checks_pass checks_pass upstream_206
       [CallShorten (post_url "http://example.com/v.mp4")] initial)
  = render_template "player.html"
      [field "video_url" (PStr (txt "http://example.com/v.mp4"));
       field "original_url" (PStr (txt "http://example.com/v.mp4"));
       field "filename" (PStr (txt "clip.mp4"))]
  /\ download_or_play (txt "clip.mp4") 7 initial
     = render_template "player.html"
         [field "video_url" expired_url; field "original_url" expired_url;
          field "filename" (PStr (txt "Expired"))].
Proof.
  split.
  - exact (proj1 (player_resolves_or_expires checks_pass checks_pass upstream_206
                    [] [] (PStr (txt "http://example.com/v.mp4")) PNone (txt "clip.mp4"))).
  - refine (proj1 (proj2 (player_resolves_or_expires checks_pass checks_pass upstream_206
                            [] [] PNone PNone (txt "clip.mp4")) 7%Z _)).
    right. vm_compute. discriminate.
Defined.

(** The store after two allocations: its keys are the integers 1 and 2. *)
Lemma stored_videos_example :
  exists n,
    KInt 2 = KInt n
    /\ (1 <= n < video_counter
                  (snd (allocate_all [(PStr (txt "http://a/"), PNone);
                                      (PStr (txt "http://b/"), PNone)] initial)))%Z.
Proof.
  refine (proj1 (proj2 (proj2 (proj2
            (stored_videos_are_kept checks_pass checks_pass upstream_206
               [(PStr (txt "http://a/"), PNone); (PStr (txt "http://b/"), PNone)] []))))
            (KInt 2) _).
  vm_compute. eexists. reflexivity.
Defined.

(** A link with a port, a path with an escape, a query and a fragment. *)
Lemma validate_url_example :
  validate_url checks_pass checks_pass
    (PStr (txt "https://example.com:8080/a%20b/v.mp4?x=1#t=10")) = true.
Proof.
  apply (proj1 (validate_url_accepts_and_rejects checks_pass checks_pass)
           (txt "https") (txt "example.com:8080") (txt "/a%20b/v.mp4?x=1#t=10")).
  - by right.
  - discriminate.
  - vm_compute; reflexivity.
  - vm_compute; reflexivity.
Defined.

(** What [urlsplit] repairs is judged after the repair: a leading space,
    a line feed inside the scheme and an upper-case scheme do not make the
    validator reject. *)
Example validate_url_after_repair (check_bracketed_host checknetloc_nfkc : list N -> bool) :
  validate_url check_bracketed_host checknetloc_nfkc
    (PStr (32%N :: txt "HT" ++ 10%N :: txt "TP://example.com")) = true.
Proof. reflexivity. Qed.

(** Values that are rejected: another scheme, no scheme, no network
    location, a bracket without its pair, a value that is not a text. *)
Example validate_url_rejections (check_bracketed_host checknetloc_nfkc : list N -> bool) :
  map (validate_url check_bracketed_host checknetloc_nfkc)
    [PStr (txt "ftp://bad"); PStr (txt "//example.com/v.mp4"); PStr (txt "example.com/v.mp4");
     PStr (txt "http:///v.mp4"); PStr (txt "http://%2F"); PStr (txt "javascript:alert(1)");
     PStr (txt "http://[x/"); PStr []; PInt 5; PNone; POther true (txt "['http://a']")]
  = [false; false; false; false; false; false; false; false; false; false; false].
Proof. reflexivity. Qed.

(** [unquote] on escapes that are well formed, ill formed and cut short. *)
Example unquote_str_examples :
  Urllib.unquote_str (txt "a%41%E2%82%ACb%zz%4") = txt "aA" ++ [8364%N] ++ txt "b%zz%4"
  /\ Urllib.unquote_str (txt "%E2%82x") = [65533%N; 120%N]
  /\ Urllib.unquote_str (txt "%C0%80") = [65533%N; 65533%N]
  /\ Urllib.unquote_str (txt "%F0%9F%98%80") = [128512%N]
  /\ Urllib.unquote_str (txt "%4%41") = txt "%4A".
Proof. repeat split; reflexivity. Qed.

Example str_of_int_examples :
  str_of_int 1 = txt "1" /\ str_of_int 1204 = txt "1204" /\ str_of_int 0 = txt "0"
  /\ str_of_int (-35) = txt "-35".
Proof. repeat split; reflexivity. Qed.

(** C4 as stated fails: [http://:80/] has no host ([urlparse] gives the
    network location [:80], whose host part is empty), and [validate_url]
    accepts it. *)
Lemma validate_url_accepts_a_url_without_host :
  (forall check_bracketed_host checknetloc_nfkc,
      Urllib.urlparse check_bracketed_host checknetloc_nfkc (txt "http://:80/")
      = Ok {| Urllib.scheme := txt "http"; Urllib.netloc := txt ":80"; Urllib.rest := txt "/" |})
  /\ Urllib.hostinfo_host (txt ":80") = []
  /\ (forall check_bracketed_host checknetloc_nfkc,
        validate_url check_bracketed_host checknetloc_nfkc (PStr (txt "http://:80/")) = true).
Proof.
  split; [|split]; [intros ? ?| |intros ? ?]; vm_compute; reflexivity.
Qed.

(** ** The link issuer *)

Arguments txt : simpl never.

Section Issuer.

Variable check_bracketed_host : list N -> bool.
Variable checknetloc_nfkc : list N -> bool.
Variable requests_get : outbound -> exc upstream.

Local Abbreviation validate_url' := (validate_url check_bracketed_host checknetloc_nfkc).
Local Abbreviation shorten' := (shorten check_bracketed_host checknetloc_nfkc).
Local Abbreviation api' := (api check_bracketed_host checknetloc_nfkc).
Local Abbreviation serve' := (serve check_bracketed_host checknetloc_nfkc requests_get).
Local Abbreviation run' := (run check_bracketed_host checknetloc_nfkc requests_get).
Local Abbreviation serve_all' := (serve_all check_bracketed_host checknetloc_nfkc requests_get).

(** The three ways in which [shorten] answers. *)
Lemma shorten_cases (req : request) (st : state) (r : response) (st' : state) :
  shorten' req st = Ok (r, st') ->
  exists long_url filename,
    (truthy long_url = false /\ st' = st
     /\ r = jsonify [field "success" (PBool false);
                     field "error" (PStr (txt "No URL provided."))] 400)
    \/ (truthy long_url = true /\ validate_url' long_url = false /\ st' = st
        /\ r = jsonify [field "success" (PBool false);
                        field "error" (PStr (txt "Invalid URL."))] 400)
    \/ (truthy long_url = true /\ validate_url' long_url = true
        /\ st' = snd (store_video_url long_url filename st)
        /\ let vid := video_counter st in
           let host := rstrip (eqc Urllib.slash) (host_url req) in
           let shown := py_str (py_or filename default_filename) in
           r = jsonify
                 [field "success" (PBool true);
                  field "video_id" (PInt vid);
                  field "short_url"
                    (PStr (host ++ txt "/" ++ shown ++ txt "/download/" ++ str_of_int vid));
                  field "player_url"
                    (PStr (host ++ txt "/player?vid=" ++ str_of_int vid ++ txt "&name=" ++ shown));
                  field "cdn_url" (PStr (host ++ txt "/cdn/" ++ str_of_int vid));
                  field "filename" (py_or filename default_filename)] 200).
Proof.
  unfold shorten. intros H.
  destruct (match method req with POST => _ | GET => _ end) as [posted|]; cbn in H; [|done].
  destruct (if negb (truthy posted.1) then _ else _) as [chosen|]; cbn in H; [|done].
  exists chosen.1, chosen.2.
  destruct (truthy chosen.1) eqn:Ht; cbn in H.
  - destruct (validate_url' chosen.1) eqn:Hv; cbn in H.
    + right; right. inversion H; subst. by repeat split.
    + right; left. inversion H; subst. by repeat split.
  - left. inversion H; subst. by repeat split.
Qed.

Lemma extract_full_url_raises req e :
  extract_full_url req = Raise e <-> Urllib.decode_strict (query_string req) = Raise e.
Proof.
  unfold extract_full_url.
  destruct (Urllib.decode_strict (query_string req)) as [q|e']; cbn;
    [|split; intros [= ->]; reflexivity].
  destruct (after_first (txt "url=") q); cbn; split; intros [=].
Qed.

(** Past the choice of the URL, [shorten] only answers. *)
Lemma shorten_tail_answers (req : request) (st : state) (chosen : pyval * pyval) (e : exn) :
  (if negb (truthy chosen.1)
   then Ok (jsonify [field "success" (PBool false);
                     field "error" (PStr (txt "No URL provided."))] 400, st)
   else if negb (validate_url' chosen.1)
   then Ok (jsonify [field "success" (PBool false);
                     field "error" (PStr (txt "Invalid URL."))] 400, st)
   else
     let '(vid, st') := store_video_url chosen.1 chosen.2 st in
     let host := rstrip (eqc Urllib.slash) (host_url req) in
     let shown := py_str (py_or chosen.2 default_filename) in
     let short_url := host ++ txt "/" ++ shown ++ txt "/download/" ++ str_of_int vid in
     let player_url := host ++ txt "/player?vid=" ++ str_of_int vid ++ txt "&name=" ++ shown in
     let cdn_url := host ++ txt "/cdn/" ++ str_of_int vid in
     Ok (jsonify [field "success" (PBool true);
                  field "video_id" (PInt vid);
                  field "short_url" (PStr short_url);
                  field "player_url" (PStr player_url);
                  field "cdn_url" (PStr cdn_url);
                  field "filename" (py_or chosen.2 default_filename)] 200,
         st')) <> Raise e.
Proof.
  destruct (negb (truthy chosen.1)); [done|].
  by destruct (negb (validate_url' chosen.1)).
Qed.

(** When [/shorten] raises instead of answering: a [POST] whose JSON body
    is a true value other than an object (a non-empty array or string, a
    number, [true]) has no [.get]; and when no URL was posted, a query
    string that is not UTF-8 cannot be decoded.  Nothing else raises. *)
Theorem shorten_raises_iff (req : request) (st : state) (e : exn) :
  shorten' req st = Raise e <->
  (method req = POST /\ json req = JsonOther true /\ e = no_get_attribute)
  \/ ((method req = GET
       \/ exists data, method req = POST /\ json_data req = Ok data
                       /\ truthy (dict_get data "url") = false)
      /\ Urllib.decode_strict (query_string req) = Raise e).
Proof.
  pose proof (shorten_tail_answers req st) as Hk.
  unfold shorten. rewrite <- extract_full_url_raises.
  assert (forall posted : pyval * pyval,
            (chosen <-! (if negb (truthy posted.1)
                         then extracted <-! extract_full_url req ;;
                              Ok (py_or extracted (args_get req "url"), args_get req "name")
                         else Ok posted) ;;
             if negb (truthy chosen.1)
             then Ok (jsonify [field "success" (PBool false);
                               field "error" (PStr (txt "No URL provided."))] 400, st)
             else if negb (validate_url' chosen.1)
             then Ok (jsonify [field "success" (PBool false);
                               field "error" (PStr (txt "Invalid URL."))] 400, st)
             else
               let '(vid, st') := store_video_url chosen.1 chosen.2 st in
               let host := rstrip (eqc Urllib.slash) (host_url req) in
               let shown := py_str (py_or chosen.2 default_filename) in
               let short_url := host ++ txt "/" ++ shown ++ txt "/download/" ++ str_of_int vid in
               let player_url :=
                 host ++ txt "/player?vid=" ++ str_of_int vid ++ txt "&name=" ++ shown in
               let cdn_url := host ++ txt "/cdn/" ++ str_of_int vid in
               Ok (jsonify [field "success" (PBool true);
                            field "video_id" (PInt vid);
                            field "short_url" (PStr short_url);
                            field "player_url" (PStr player_url);
                            field "cdn_url" (PStr cdn_url);
                            field "filename" (py_or chosen.2 default_filename)] 200,
                   st')) = Raise e
            <-> truthy posted.1 = false /\ extract_full_url req = Raise e) as Hchoose.
  { intros posted. destruct (truthy posted.1); cbn [negb exc_bind].
    - split; [intros H; destruct (Hk _ _ H)|by intros [? _]].
    - destruct (extract_full_url req) as [u|e']; cbn [exc_bind].
      + split; [intros H; destruct (Hk _ _ H)|by intros [_ ?]].
      + split; [by intros [= ->]|by intros [_ [= ->]]]. }
  destruct (method req) eqn:Hm; cbn [exc_bind].
  - rewrite Hchoose. cbn [fst truthy]. split.
    + intros [_ H]. right. split; [by left|done].
    + intros [(? & _)|[_ H']]; done.
  - unfold json_data. destruct (json req) as [|fields|[|]] eqn:Hj; cbn [exc_bind].
    4: { rewrite Hchoose. cbn [fst]. split.
         - intros [Ht H]. right. split; [|done]. right. by exists ∅.
         - intros [(_ & ? & _)|[[?|(data & _ & [= <-] & Ht')] H']]; done. }
    3: { split.
         - intros [= <-]. by left.
         - intros [(_ & _ & ->)|[[?|(data & _ & ? & _)] _]]; done. }
    2: { rewrite Hchoose. cbn [fst]. split.
         - intros [Ht H]. right. split; [|done]. right. by exists fields.
         - intros [(_ & ? & _)|[[?|(data & _ & [= <-] & Ht')] H']]; done. }
    rewrite Hchoose. cbn [fst]. split.
    + intros [Ht H]. right. split; [|done]. right. by exists ∅.
    + intros [(_ & ? & _)|[[?|(data & _ & [= <-] & Ht')] H']]; done.
Qed.

Lemma validate_url_is_text v : validate_url' v = true -> exists u, v = PStr u /\ u <> [].
Proof.
  destruct v as [| | |u|]; try (intros Hv; by vm_compute in Hv).
  intros Hv. exists u. split; [done|]. intros ->. by vm_compute in Hv.
Qed.

Lemma py_or_default_truthy filename : truthy (py_or filename default_filename) = true.
Proof. unfold py_or. by destruct (truthy filename) eqn:E. Qed.

(** After any history of requests, every stored entry holds a non-empty
    text that [validate_url] accepts, and a filename that is true (never
    [None], never empty). *)
Theorem stored_urls_are_validated (history : list call) (k : pykey) (info : video_info) :
  video_storage (run' history initial) !! k = Some info ->
  (exists u, vi_url info = PStr u /\ u <> [] /\ validate_url' (PStr u) = true)
  /\ truthy (vi_filename info) = true.
Proof.
  assert (forall hist st,
             (forall k info, video_storage st !! k = Some info ->
                             validate_url' (vi_url info) = true
                             /\ truthy (vi_filename info) = true) ->
             forall k info, video_storage (run' hist st) !! k = Some info ->
                            validate_url' (vi_url info) = true
                            /\ truthy (vi_filename info) = true) as Hrun.
  { induction hist as [|c hist IH]; intros st Hst; [exact Hst|].
    cbn [run foldl]. apply IH. clear IH.
    destruct c as [req| | | |]; cbn; try exact Hst.
    destruct (shorten' req st) as [[r st']|] eqn:E; cbn; [|exact Hst].
    apply shorten_cases in E as (long_url & filename & [H|[H|H]]).
    - by destruct H as (_ & -> & _).
    - by destruct H as (_ & _ & -> & _).
    - destruct H as (_ & Hv & -> & _). intros k' info'. cbn.
      rewrite lookup_insert. case_decide.
      + intros [= <-]. cbn. split; [done|apply py_or_default_truthy].
      + apply Hst. }
  intros Hk. destruct (Hrun history initial) with (k := k) (info := info) as [Hv Hf];
    [by intros ? ?; cbn; rewrite lookup_empty|done|].
  split; [|done]. destruct (validate_url_is_text _ Hv) as (u & Hu & Hne).
  exists u. by rewrite <- Hu.
Qed.

(** One request served: either the store is as before and the answer
    carries no [video_id], or one entry was stored and the answer carries
    the old value of the counter. *)
Lemma serve_step c st :
  (snd (serve' c st) = st /\ video_id_of (fst (serve' c st)) = None)
  \/ (exists url filename,
        snd (serve' c st) = snd (store_video_url url filename st)
        /\ video_id_of (fst (serve' c st)) = Some (video_counter st)).
Proof.
  destruct c as [req|video_id|filename video_id|req|video_id req]; cbn [serve fst snd].
  - destruct (shorten' req st) as [[r st']|] eqn:E; cbn [fst snd]; [|by left].
    apply shorten_cases in E as (long_url & filename & [H|[H|H]]).
    + destruct H as (_ & -> & ->). left. split; [done|].
      reflexivity.
    + destruct H as (_ & _ & -> & ->). left. split; [done|].
      reflexivity.
    + destruct H as (_ & _ & -> & ->). right. exists long_url, filename. split; [done|].
      reflexivity.
  - by left.
  - left. split; [done|]. unfold download_or_play. by destruct (video_storage st !! _).
  - left. split; [done|]. unfold api.
    destruct (extract_full_url req) as [u|]; cbn [exc_bind]; [|done].
    destruct (negb (truthy _)); [reflexivity|].
    destruct (negb (validate_url' _));
      reflexivity.
  - left. split; [done|]. unfold stream_video.
    destruct (video_storage st !! _);
      [|reflexivity].
    destruct (requests_get _) as [resp|e]; cbn [fst]; [done|].
    destruct (is_request_exception e); cbn [fst]; [|done].
    reflexivity.
Qed.

Lemma serve_all_from history : forall st,
  snd (serve_all' history st) = run' history st
  /\ omap video_id_of (fst (serve_all' history st))
     = seqZ (video_counter st) (video_counter (run' history st) - video_counter st)
  /\ (video_counter st <= video_counter (run' history st))%Z
  /\ (store_inv st ->
      Z.of_nat (size (video_storage st)) = (video_counter st - 1)%Z ->
      Z.of_nat (size (video_storage (run' history st)))
      = (video_counter (run' history st) - 1)%Z).
Proof.
  induction history as [|c history IH]; intros st.
  - cbn. rewrite Z.sub_diag. repeat split; [lia|done].
  - cbn [serve_all run foldl].
    destruct (serve' c st) as [r st1] eqn:E1.
    destruct (serve_all' history st1) as [rs st2] eqn:E2.
    destruct (IH st1) as (Hrun & Hids & Hle & Hsize). rewrite E2 in Hrun, Hids.
    cbn [fst snd] in *. fold (run' history st1).
    pose proof (serve_step c st) as Hstep. rewrite E1 in Hstep. cbn [fst snd] in Hstep.
    destruct Hstep as [[-> Hnone]|(url & filename & -> & Hsome)].
    + cbn [omap list_omap]. rewrite Hnone. by repeat split.
    + cbn [omap list_omap]. rewrite Hsome, Hids.
      rewrite store_video_url_counter in *.
      split; [done|]. split; [|split; [lia|]].
      * rewrite (seqZ_cons (video_counter st)) by lia. f_equal. f_equal; lia.
      * intros Hinv Hsz. apply Hsize; [by apply store_video_url_inv|].
        cbn [store_video_url snd video_storage].
        rewrite map_size_insert_None; [lia|].
        destruct (video_storage st !! KInt (video_counter st)) eqn:El; [|done].
        destruct Hinv as [_ Hk].
        destruct (proj1 (Hk (KInt (video_counter st)))) as (n & [= <-] & Hn); [by eauto|lia].
Qed.

(** Over any history of requests, the [video_id]s in the answers are
    1, 2, ..., N in the order of the requests, where N + 1 is the final
    value of the counter, and the store holds exactly N entries. *)
Theorem issued_ids_count_up (history : list call) :
  let answers := fst (serve_all' history initial) in
  let st := snd (serve_all' history initial) in
  st = run' history initial
  /\ omap video_id_of answers = seqZ 1 (video_counter st - 1)
  /\ Z.of_nat (size (video_storage st)) = (video_counter st - 1)%Z.
Proof.
  cbv zeta. destruct (serve_all_from history initial) as (Hrun & Hids & _ & Hsize).
  rewrite Hrun. split; [done|]. split; [exact Hids|].
  apply Hsize; [apply store_inv_initial|done].
Qed.

(** A valid URL posted as JSON is stored exactly as it was sent (the
    escapes that [validate_url] decoded are still in it), whatever the
    query string holds, and the player path resolves the identifier of
    the answer to it after any later requests. *)
Theorem posted_url_is_stored_as_sent
  (history later : list call) (req : request)
  (fields : gmap (list N) pyval) (u name : list N) :
  method req = POST ->
  json req = JsonObject fields ->
  fields !! txt "url" = Some (PStr u) ->
  validate_url' (PStr u) = true ->
  let st := run' history initial in
  let stored := {| vi_url := PStr u;
                   vi_filename := py_or (dict_get fields "name") default_filename |} in
  exists r st',
    shorten' req st = Ok (r, st')
    /\ status r = 200%Z
    /\ video_id_of (Ok r) = Some (video_counter st)
    /\ video_storage st' !! KInt (video_counter st) = Some stored
    /\ download_or_play name (video_counter st) (run' later st')
       = render_template "player.html"
           [field "video_url" (PStr u); field "original_url" (PStr u);
            field "filename" (py_or (PStr name) (vi_filename stored))].
Proof.
  intros Hm Hj Hurl Hv st stored.
  destruct (validate_url_is_text _ Hv) as (u' & [= <-] & Hne).
  assert (truthy (PStr u) = true) as Ht by (by destruct u).
  eexists _, (snd (store_video_url (PStr u) (dict_get fields "name") st)).
  split; [|split; [|split; [|split]]].
  - unfold shorten. rewrite Hm. unfold json_data. rewrite Hj. cbn [exc_bind fst snd].
    assert (dict_get fields "url" = PStr u) as -> by (unfold dict_get; by rewrite Hurl).
    rewrite Ht. cbn [negb exc_bind fst snd].
    rewrite Ht, Hv. cbn [negb]. reflexivity.
  - reflexivity.
  - reflexivity.
  - apply store_video_url_lookup.
  - pose proof (run_reachable_inv check_bracketed_host checknetloc_nfkc requests_get history)
      as Hinv.
    pose proof (store_video_url_inv (PStr u) (dict_get fields "name") _ Hinv) as Hinv1.
    destruct (run_inv check_bracketed_host checknetloc_nfkc requests_get later _ Hinv1)
      as [_ Hkept].
    subst st stored. unfold download_or_play.
    by rewrite (Hkept _ _ (store_video_url_lookup (PStr u) (dict_get fields "name") _)).
Qed.

(** [/api] and a [GET] to [/shorten] read the URL in the same way: one
    raises exactly when the other does, they answer with the same status,
    and the link that [/api] echoes is the URL that [/shorten] stores. *)
Theorem api_agrees_with_shorten (req : request) (st : state) :
  method req = GET ->
  (forall e, api' req = Raise e <-> shorten' req st = Raise e)
  /\ (forall ra, api' req = Ok ra ->
        exists rs st',
          shorten' req st = Ok (rs, st')
          /\ status rs = status ra
          /\ (status ra = 400%Z /\ st' = st
              \/ exists u,
                  ra = jsonify [field "success" (PBool true); field "download_link" u] 200
                  /\ validate_url' u = true
                  /\ video_storage st' !! KInt (video_counter st)
                     = Some {| vi_url := u;
                               vi_filename := py_or (args_get req "name") default_filename |})).
Proof.
  intros Hm. unfold api, shorten. rewrite Hm. cbn [exc_bind fst snd negb truthy].
  destruct (extract_full_url req) as [x|e']; cbn [exc_bind fst snd].
  - split.
    + intros e. split; intros H; exfalso.
      * destruct (negb (truthy _)); [done|]. by destruct (negb (validate_url' _)).
      * by destruct (shorten_tail_answers req st
                        (py_or x (args_get req "url"), args_get req "name") e H).
    + intros ra. destruct (truthy (py_or x (args_get req "url"))) eqn:Ht; cbn [negb].
      * destruct (validate_url' (py_or x (args_get req "url"))) eqn:Hv; cbn [negb].
        -- intros [= <-]. eexists _, _. split; [reflexivity|]. split; [reflexivity|].
           right. eexists. split; [reflexivity|]. split; [exact Hv|].
           apply store_video_url_lookup.
        -- intros [= <-]. eexists _, _. split; [reflexivity|]. split; [reflexivity|].
           by left.
      * intros [= <-]. eexists _, _. split; [reflexivity|]. split; [reflexivity|].
        by left.
  - split; [|done]. intros e. split; by intros [= ->].
Qed.

Lemma strip_prefix_spec pat : forall s r, strip_prefix pat s = Some r <-> s = pat ++ r.
Proof.
  induction pat as [|a pat IH]; intros s r; cbn [strip_prefix app].
  - split; [by intros [= ->]|by intros ->].
  - destruct s as [|c s]; [by split|].
    destruct (N.eqb_spec a c) as [->|Hne].
    + rewrite IH. split; [by intros ->|by intros [= ->]].
    + split; [done|]. intros [= <- _]. done.
Qed.

Lemma after_first_unfold pat s :
  after_first pat s
  = match strip_prefix pat s with
    | Some r => Some r
    | None => match s with [] => None | _ :: s' => after_first pat s' end
    end.
Proof. by destruct s. Qed.

(** [after_first] finds the first occurrence of the pattern. *)
Lemma after_first_first pat pre : forall s tail,
  s = pre ++ pat ++ tail ->
  (forall pre' tail', s = pre' ++ pat ++ tail' -> (length pre <= length pre')%nat) ->
  after_first pat s = Some tail.
Proof.
  induction pre as [|c pre IH]; intros s tail Hs Hmin; rewrite after_first_unfold.
  - cbn [app] in Hs. by rewrite (proj2 (strip_prefix_spec pat s tail) Hs).
  - destruct (strip_prefix pat s) as [r|] eqn:Hp.
    + apply strip_prefix_spec in Hp. specialize (Hmin [] r Hp). cbn in Hmin. lia.
    + subst s. cbn [app]. apply IH; [done|].
      intros pre' tail' Heq. specialize (Hmin (c :: pre') tail'). cbn in Hmin.
      rewrite Heq in Hmin. specialize (Hmin eq_refl). lia.
Qed.

Lemma after_first_absent pat : forall s,
  (forall pre tail, s <> pre ++ pat ++ tail) -> after_first pat s = None.
Proof.
  induction s as [|c s IH]; intros Habs; rewrite after_first_unfold.
  - destruct (strip_prefix pat []) as [r|] eqn:Hp; [|done].
    apply strip_prefix_spec in Hp. by destruct (Habs [] r).
  - destruct (strip_prefix pat (c :: s)) as [r|] eqn:Hp.
    + apply strip_prefix_spec in Hp. by destruct (Habs [] r).
    + apply IH. intros pre tail ->. by destruct (Habs (c :: pre) tail).
Qed.

(** [extract_full_url] on a query string that decodes to [q]: when [url=]
    occurs in [q], the result is everything after its first occurrence,
    unquoted once - later parameters included; when it does not, the
    result is [None]. *)
Theorem extract_full_url_takes_the_rest (req : request) (q : list N) :
  Urllib.decode_strict (query_string req) = Ok q ->
  (forall pre tail,
      q = pre ++ txt "url=" ++ tail ->
      (forall pre' tail', q = pre' ++ txt "url=" ++ tail' -> (length pre <= length pre')%nat) ->
      extract_full_url req = Ok (PStr (Urllib.unquote_str tail)))
  /\ ((forall pre tail, q <> pre ++ txt "url=" ++ tail) ->
      extract_full_url req = Ok PNone).
Proof.
  intros Hq. unfold extract_full_url. rewrite Hq. cbn [exc_bind]. split.
  - intros pre tail Hocc Hmin. by rewrite (after_first_first _ pre q tail Hocc Hmin).
  - intros Habs. by rewrite (after_first_absent _ q Habs).
Qed.

(** With no URL posted, the answer of [shorten] for the value [x] that
    [extract_full_url] returns. *)
Lemma shorten_chosen (req : request) (st : state) (x : pyval) :
  (method req = GET
   \/ exists data, method req = POST /\ json_data req = Ok data
                   /\ truthy (dict_get data "url") = false) ->
  extract_full_url req = Ok x ->
  let u := py_or x (args_get req "url") in
  (truthy u = false ->
   shorten' req st
   = Ok (jsonify [field "success" (PBool false);
                  field "error" (PStr (txt "No URL provided."))] 400, st))
  /\ (truthy u = true -> validate_url' u = false ->
      shorten' req st
      = Ok (jsonify [field "success" (PBool false);
                     field "error" (PStr (txt "Invalid URL."))] 400, st))
  /\ (validate_url' u = true ->
      exists r st',
        shorten' req st = Ok (r, st')
        /\ status r = 200%Z
        /\ video_id_of (Ok r) = Some (video_counter st)
        /\ video_counter st' = (video_counter st + 1)%Z
        /\ video_storage st'
           = <[KInt (video_counter st) :=
                 {| vi_url := u;
                    vi_filename := py_or (args_get req "name") default_filename |}]>
               (video_storage st)).
Proof.
  intros Hposted Hx u.
  assert (shorten' req st
          = (let chosen := (u, args_get req "name") in
             if negb (truthy chosen.1)
             then Ok (jsonify [field "success" (PBool false);
                               field "error" (PStr (txt "No URL provided."))] 400, st)
             else if negb (validate_url' chosen.1)
             then Ok (jsonify [field "success" (PBool false);
                               field "error" (PStr (txt "Invalid URL."))] 400, st)
             else
               let '(vid, st') := store_video_url chosen.1 chosen.2 st in
               let host := rstrip (eqc Urllib.slash) (host_url req) in
               let shown := py_str (py_or chosen.2 default_filename) in
               let short_url := host ++ txt "/" ++ shown ++ txt "/download/" ++ str_of_int vid in
               let player_url :=
                 host ++ txt "/player?vid=" ++ str_of_int vid ++ txt "&name=" ++ shown in
               let cdn_url := host ++ txt "/cdn/" ++ str_of_int vid in
               Ok (jsonify [field "success" (PBool true);
                            field "video_id" (PInt vid);
                            field "short_url" (PStr short_url);
                            field "player_url" (PStr player_url);
                            field "cdn_url" (PStr cdn_url);
                            field "filename" (py_or chosen.2 default_filename)] 200,
                   st'))) as ->.
  { unfold shorten. destruct Hposted as [Hm|(data & Hm & Hj & Ht)].
    - rewrite Hm. cbn [exc_bind fst snd truthy negb]. rewrite Hx. reflexivity.
    - rewrite Hm, Hj. cbn [exc_bind fst snd]. rewrite Ht. cbn [negb]. rewrite Hx.
      reflexivity. }
  cbn [fst snd]. split; [|split].
  - by intros ->.
  - by intros -> ->.
  - intros Hv. destruct (validate_url_is_text _ Hv) as (t & Hu & Hne).
    assert (truthy u = true) as -> by (rewrite Hu; by destruct t).
    rewrite Hv. cbn [negb store_video_url]. eexists _, _. split; [reflexivity|].
    repeat split.
Qed.

(** How [/shorten] finds its URL when none was posted (a [GET], or a
    [POST] without a true [url] in its body), on a query string that
    decodes to [q].  When [url=] occurs in [q] and the rest after its
    first occurrence, unquoted once, is not empty, that rest is the URL -
    later parameters included - and the parsed argument [url] is not
    looked at; when the rest is empty or [url=] does not occur, the parsed
    argument [url] is the URL.  The filename is the parsed argument
    [name], also on a [POST] that carries a [name].  Without a URL the
    answer is 400 "No URL provided.", with a URL that [validate_url]
    rejects 400 "Invalid URL.", both with the store untouched; otherwise
    200, and exactly the entry of that URL and filename is stored under
    the old value of the counter, which the answer carries. *)
Theorem shorten_reads_the_query (req : request) (st : state) (q : list N) :
  (method req = GET
   \/ exists data, method req = POST /\ json_data req = Ok data
                   /\ truthy (dict_get data "url") = false) ->
  Urllib.decode_strict (query_string req) = Ok q ->
  let answers_for (u : pyval) :=
    (truthy u = false ->
     shorten' req st
     = Ok (jsonify [field "success" (PBool false);
                    field "error" (PStr (txt "No URL provided."))] 400, st))
    /\ (truthy u = true -> validate_url' u = false ->
        shorten' req st
        = Ok (jsonify [field "success" (PBool false);
                       field "error" (PStr (txt "Invalid URL."))] 400, st))
    /\ (validate_url' u = true ->
        exists r st',
          shorten' req st = Ok (r, st')
          /\ status r = 200%Z
          /\ video_id_of (Ok r) = Some (video_counter st)
          /\ video_counter st' = (video_counter st + 1)%Z
          /\ video_storage st'
             = <[KInt (video_counter st) :=
                   {| vi_url := u;
                      vi_filename := py_or (args_get req "name") default_filename |}]>
                 (video_storage st)) in
  (forall pre tail,
      q = pre ++ txt "url=" ++ tail ->
      (forall pre' tail', q = pre' ++ txt "url=" ++ tail' -> (length pre <= length pre')%nat) ->
      (Urllib.unquote_str tail <> [] -> answers_for (PStr (Urllib.unquote_str tail)))
      /\ (Urllib.unquote_str tail = [] -> answers_for (args_get req "url")))
  /\ ((forall pre tail, q <> pre ++ txt "url=" ++ tail) -> answers_for (args_get req "url")).
Proof.
  intros Hposted Hq answers_for. subst answers_for. cbv beta. split.
  - intros pre tail Hocc Hmin.
    assert (extract_full_url req = Ok (PStr (Urllib.unquote_str tail))) as Hx.
    { unfold extract_full_url. rewrite Hq. cbn [exc_bind].
      by rewrite (after_first_first _ pre q tail Hocc Hmin). }
    pose proof (shorten_chosen req st _ Hposted Hx) as Hc. cbv zeta in Hc.
    split.
    + intros Hne.
      assert (py_or (PStr (Urllib.unquote_str tail)) (args_get req "url")
              = PStr (Urllib.unquote_str tail)) as Hor
          by (unfold py_or; cbn [truthy]; by destruct (Urllib.unquote_str tail)).
      by rewrite Hor in Hc.
    + intros Hempty.
      assert (py_or (PStr (Urllib.unquote_str tail)) (args_get req "url")
              = args_get req "url") as Hor
          by (unfold py_or; cbn [truthy]; by rewrite Hempty).
      by rewrite Hor in Hc.
  - intros Habs.
    assert (extract_full_url req = Ok PNone) as Hx.
    { unfold extract_full_url. rewrite Hq. cbn [exc_bind].
      by rewrite (after_first_absent _ q Habs). }
    exact (shorten_chosen req st _ Hposted Hx).
Qed.

End Issuer.

(** ** What the proxy sends on, and what it does not *)

Ltac pick_name :=
  solve [repeat first [apply list_elem_of_here | apply list_elem_of_further]].

Ltac known_key H :=
  repeat (rewrite lookup_insert in H; case_decide; [subst; pick_name|]);
  rewrite lookup_empty in H; by destruct H.

(** The call to the upstream carries five fixed headers and, at most, the
    inbound [Range]: the client's [User-Agent] or [Mozilla/5.0], and the
    four constants.  No other inbound header (a cookie, an authorization)
    is passed on. *)
Theorem outbound_headers_are_fixed (req : request) :
  (forall k, is_Some (outbound_headers req !! k) -> k ∈ outbound_header_names)
  /\ outbound_headers req !! txt "User-Agent"
     = Some (default (txt "Mozilla/5.0") (headers req !! txt "User-Agent"))
  /\ outbound_headers req !! txt "Accept" = Some (txt "*/*")
  /\ outbound_headers req !! txt "Accept-Language" = Some (txt "en-US,en;q=0.9")
  /\ outbound_headers req !! txt "Accept-Encoding" = Some (txt "identity")
  /\ outbound_headers req !! txt "Connection" = Some (txt "keep-alive").
Proof.
  split.
  - intros k Hk. unfold outbound_headers, outbound_header_names in *.
    destruct (headers req !! txt "Range") as [r|]; [destruct (truthy (PStr r))|];
      unfold list_to_map in Hk; cbn [foldr fst snd] in Hk; known_key Hk.
  - unfold outbound_headers.
    destruct (headers req !! txt "Range") as [r|]; [destruct (truthy (PStr r))|];
      repeat split; by lookup_headers.
Qed.

(** The relayed response carries no header of the upstream other than
    [Content-Type], [Content-Length] and [Content-Range]: its header names
    are among five. *)
Theorem relayed_headers_are_fixed (resp : upstream) (k : list N) :
  is_Some (resp_headers (relay resp) !! k) -> k ∈ relayed_header_names.
Proof.
  intros Hk. unfold relay, relayed_header_names in *. cbn [resp_headers] in Hk.
  destruct (up_headers resp !! txt "Content-Length") as [cl|];
    [destruct (truthy (PStr cl))|];
    (destruct (up_headers resp !! txt "Content-Range") as [cr|]);
    unfold list_to_map in Hk; cbn [foldr fst snd] in Hk; known_key Hk.
Qed.

Lemma concat_filter_nonempty (chunks : list (list N)) :
  concat (filter (fun chunk => chunk <> []) chunks) = concat chunks
  /\ Forall (fun chunk => chunk <> []) (filter (fun chunk => chunk <> []) chunks).
Proof.
  induction chunks as [|chunk chunks [IHc IHf]]; [by split|].
  destruct chunk as [|c chunk].
  - rewrite filter_cons_False by (by intros ?). by split.
  - rewrite filter_cons_True by done. cbn [concat]. rewrite IHc. split; [done|].
    by apply Forall_cons.
Qed.

(** The relay drops the empty chunks and nothing else: the bytes of the
    relayed body are the bytes of the upstream's body, in order. *)
Theorem relayed_body_is_the_upstream_body (resp : upstream) :
  concat (streamed (content (relay resp))) = concat (up_chunks resp)
  /\ Forall (fun chunk => chunk <> []) (streamed (content (relay resp))).
Proof. unfold relay. cbn [content streamed]. apply concat_filter_nonempty. Qed.

(** The ways [stream_video] ends: 404 without a call; or one call, and
    then the relayed answer of the upstream, or 500 for a
    [RequestException], or the exception itself when the client raised
    another one. *)
Theorem stream_video_outcomes
  (requests_get : outbound -> exc upstream) (video_id : list N) (req : request) (st : state) :
  match stream_video requests_get video_id req st with
  | (Ok r, []) =>
      video_storage st !! KStr video_id = None /\ status r = 404%Z
  | (Ok r, [call]) =>
      (exists resp, requests_get call = Ok resp /\ r = relay resp)
      \/ (exists e, requests_get call = Raise e /\ is_request_exception e = true
                    /\ status r = 500%Z)
  | (Raise e, [call]) =>
      requests_get call = Raise e /\ is_request_exception e = false
  | _ => False
  end.
Proof.
  unfold stream_video. destruct (video_storage st !! KStr video_id) as [info|]; [|done].
  destruct (requests_get _) as [resp|e] eqn:Hcall; [by left; eexists|].
  destruct (is_request_exception e) eqn:He; [|done]. right. by exists e.
Qed.

(** The page of the player path shows the filename of the path, never
    the stored one: the path segment is not empty, so the stored filename
    is not consulted; both URL fields of the page are the same. *)
Theorem player_shows_the_path_filename (name : list N) (video_id : Z) (st : state) :
  name <> [] ->
  exists context,
    download_or_play name video_id st
    = {| status := 200; resp_headers := ∅; content := Template (txt "player.html") context |}
    /\ context !! txt "video_url" = context !! txt "original_url"
    /\ context !! txt "filename"
       = Some (match video_storage st !! KInt video_id with
               | Some _ => PStr name
               | None => PStr (txt "Expired")
               end).
Proof.
  intros Hname. unfold download_or_play.
  destruct (video_storage st !! KInt video_id) as [info|].
  - eexists. split; [reflexivity|]. split; [reflexivity|].
    assert (py_or (PStr name) (vi_filename info) = PStr name) as ->
      by (unfold py_or; by destruct name).
    reflexivity.
  - eexists. split; [reflexivity|]. by split.
Qed.

(** ** The links and the routes *)

Section Routes.

Variable check_bracketed_host : list N -> bool.
Variable checknetloc_nfkc : list N -> bool.
Variable requests_get : outbound -> exc upstream.
Variable unicode_decimal : N -> option N.

Local Abbreviation shorten' := (shorten check_bracketed_host checknetloc_nfkc).
Local Abbreviation run' := (run check_bracketed_host checknetloc_nfkc requests_get).
Local Abbreviation int_of_digits' := (int_of_digits unicode_decimal).
Local Abbreviation int_converter' := (int_converter unicode_decimal).
Local Abbreviation matching_rules' := (matching_rules unicode_decimal).

Lemma int_of_digits_app l1 : forall a l2,
  int_of_digits' a (l1 ++ l2)
  = match int_of_digits' a l1 with
    | Some a' => int_of_digits' a' l2
    | None => None
    end.
Proof.
  induction l1 as [|c l1 IH]; intros a l2; [done|].
  cbn [app int_of_digits]. destruct (decimal_value unicode_decimal c); [apply IH|done].
Qed.

Lemma decimal_value_digit d :
  (d < 10)%N -> decimal_value unicode_decimal (48 + d)%N = Some d /\ is_digit (48 + d)%N = true.
Proof.
  intros Hd. unfold decimal_value, is_ascii, is_digit.
  assert ((48 + d <? 128)%N = true) as -> by (apply N.ltb_lt; lia).
  assert ((48 <=? 48 + d)%N = true) as -> by (apply N.leb_le; lia).
  assert ((48 + d <=? 57)%N = true) as -> by (apply N.leb_le; lia).
  cbn [andb]. split; [|done]. f_equal. lia.
Qed.

(** The digits that [str] writes are read back by [int]. *)
Lemma digits_spec fuel : forall n acc,
  (0 < n)%N -> (n < 2 ^ N.of_nat fuel)%N ->
  exists ds,
    digits fuel n acc = ds ++ acc
    /\ ds <> []
    /\ Forall (fun c => is_digit c = true) ds
    /\ forall a, int_of_digits' a ds = Some (a * 10 ^ Z.of_nat (length ds) + Z.of_N n)%Z.
Proof.
  induction fuel as [|fuel IH]; intros n acc Hpos Hlt.
  - cbn in Hlt. lia.
  - cbn [digits].
    assert (n mod 10 < 10)%N as Hmod by (apply N.mod_lt; lia).
    destruct (decimal_value_digit _ Hmod) as [Hval Hdig].
    pose proof (N.div_mod n 10 ltac:(lia)) as Hdm.
    destruct (N.eqb_spec (n / 10) 0) as [Hz|Hnz].
    + exists [(48 + n mod 10)%N]. split; [done|]. split; [done|]. split; [by constructor|].
      intros a. cbn [int_of_digits length]. rewrite Hval. f_equal. lia.
    + destruct (IH (n / 10)%N ((48 + n mod 10)%N :: acc)) as (ds & Hds & Hne & Hall & Hint).
      * lia.
      * apply N.Div0.div_lt_upper_bound.
        rewrite Nat2N.inj_succ, N.pow_succ_r' in Hlt. lia.
      * exists (ds ++ [(48 + n mod 10)%N]). split; [by rewrite Hds, <- app_assoc|].
        split; [by destruct ds|]. split; [apply Forall_app; split; [done|by constructor]|].
        intros a. rewrite int_of_digits_app, Hint. cbn [int_of_digits]. rewrite Hval.
        f_equal. rewrite length_app. cbn [length].
        replace (Z.of_nat (length ds + 1)) with (Z.succ (Z.of_nat (length ds))) by lia.
        rewrite Z.pow_succ_r by lia. lia.
Qed.

(** [int(str(n)) = n] for the identifiers, which are not negative; the
    text of an identifier is made of digits and is not empty. *)
Lemma int_converter_str_of_int n :
  (0 <= n)%Z ->
  int_converter' (str_of_int n) = Some n
  /\ str_of_int n <> []
  /\ Forall (fun c => is_digit c = true) (str_of_int n).
Proof.
  intros Hn. destruct n as [|p|p]; [by repeat constructor| |lia].
  unfold str_of_int.
  destruct (digits_spec (S (N.to_nat (N.log2 (N.pos p)))) (N.pos p) [])
    as (ds & Hds & Hne & Hall & Hint); [lia| |].
  { rewrite Nat2N.inj_succ, N2Nat.id. apply N.log2_spec. lia. }
  rewrite Hds, app_nil_r. split; [|by split].
  unfold int_converter. destruct ds as [|d ds]; [done|].
  rewrite Hint. f_equal; lia.
Qed.

Lemma split_slash_seg seg :
  Forall (fun c => (c =? Urllib.slash)%N = false) seg -> split_slash seg = [seg].
Proof.
  induction 1 as [|c seg Hc _ IH]; [done|]. cbn [split_slash]. by rewrite Hc, IH.
Qed.

Lemma split_slash_app seg tail :
  Forall (fun c => (c =? Urllib.slash)%N = false) seg ->
  split_slash (seg ++ Urllib.slash :: tail) = seg :: split_slash tail.
Proof.
  induction 1 as [|c seg Hc _ IH]; [done|].
  cbn [app split_slash]. by rewrite Hc, IH.
Qed.

Lemma digit_is_no_delim c :
  is_digit c = true -> (c =? Urllib.slash)%N = false /\ Urllib.netloc_delim c = false.
Proof.
  unfold is_digit, Urllib.netloc_delim, Urllib.slash, Urllib.question, Urllib.hash.
  rewrite andb_true_iff, !N.leb_le, !orb_false_iff, !N.eqb_neq. lia.
Qed.

Lemma link_path_plain link :
  Forall (fun c => ends_path c = false) link -> link_path link = link.
Proof.
  unfold link_path. intros H.
  assert (forall l, Forall (fun c => ends_path c = false) l -> break ends_path l = (l, []))
    as Hb.
  { induction 1 as [|c l Hc _ IH]; [done|]. cbn [break]. by rewrite Hc, IH. }
  by rewrite Hb.
Qed.

Lemma no_delim_facts c :
  Urllib.netloc_delim c = false -> (c =? Urllib.slash)%N = false /\ ends_path c = false.
Proof.
  unfold Urllib.netloc_delim, ends_path. rewrite !orb_false_iff.
  intros [[? ?] ?]. by repeat split.
Qed.

Ltac literal_test :=
  match goal with
  | |- context [bool_decide (txt ?a = txt ?b)] =>
      let v := eval vm_compute in (bool_decide (txt a = txt b)) in
      replace (bool_decide (txt a = txt b)) with v by (vm_compute; reflexivity)
  | |- context [bool_decide (txt ?a = ?b)] =>
      destruct (bool_decide (txt a = b)) eqn:?
  end.

(** The rules for the text of an identifier under [/cdn/]. *)
Lemma matching_rules_cdn ds :
  ds <> [] -> Forall (fun c => is_digit c = true) ds ->
  matching_rules' (txt "/cdn/" ++ ds) = [(EpStreamVideo, [PStr ds])].
Proof.
  intros Hne Hds.
  change (txt "/cdn/" ++ ds) with (Urllib.slash :: txt "cdn" ++ Urllib.slash :: ds).
  unfold matching_rules. rewrite N.eqb_refl.
  rewrite split_slash_app by (repeat constructor).
  rewrite split_slash_seg by (eapply Forall_impl; [exact Hds|]; intros c Hc;
                              by apply digit_is_no_delim in Hc as [? _]).
  destruct ds as [|d ds]; [done|]. unfold url_map.
  cbn [omap list_omap match_parts fst snd fmap option_fmap option_map].
  repeat (literal_test; cbn [omap list_omap match_parts fst snd fmap option_fmap option_map]).
  all: reflexivity.
Qed.



(** The rules for a short link whose filename segment is plain. *)
Lemma matching_rules_short shown ds vid :
  shown <> [] -> shown <> txt "static" ->
  Forall (fun c => Urllib.netloc_delim c = false) shown ->
  Forall (fun c => is_digit c = true) ds ->
  int_converter' ds = Some vid ->
  matching_rules' (link_path (txt "/" ++ shown ++ txt "/download/" ++ ds))
  = [(EpDownloadOrPlay, [PStr shown; PInt vid])].
Proof.
  intros Hne Hstatic Hshown Hds Hint.
  assert (Forall (fun c => (c =? Urllib.slash)%N = false) shown) as Hslash.
  { eapply Forall_impl; [exact Hshown|]. intros c Hc. by apply no_delim_facts in Hc as [? _]. }
  assert (Forall (fun c => ends_path c = false) shown) as Hends.
  { eapply Forall_impl; [exact Hshown|]. intros c Hc. by apply no_delim_facts in Hc as [_ ?]. }
  assert (Forall (fun c => ends_path c = false) ds) as Hds'.
  { eapply Forall_impl; [exact Hds|]. intros c Hc.
    apply digit_is_no_delim in Hc as [_ Hc]. by apply no_delim_facts in Hc as [_ ?]. }
  assert (Forall (fun c => (c =? Urllib.slash)%N = false) ds) as Hds''.
  { eapply Forall_impl; [exact Hds|]. intros c Hc. by apply digit_is_no_delim in Hc as [? _]. }
  rewrite link_path_plain.
  2: { repeat (apply Forall_app; split); try done; by repeat constructor. }
  change (txt "/" ++ shown ++ txt "/download/" ++ ds)
    with (Urllib.slash :: shown ++ Urllib.slash :: (txt "download" ++ Urllib.slash :: ds)).
  unfold matching_rules. rewrite N.eqb_refl.
  rewrite split_slash_app by done.
  rewrite split_slash_app by (repeat constructor).
  rewrite split_slash_seg by done.
  destruct shown as [|c shown]; [done|]. unfold url_map.
  cbn [omap list_omap match_parts fst snd fmap option_fmap option_map].
  repeat (first [literal_test | rewrite Hint];
          cbn [omap list_omap match_parts fst snd fmap option_fmap option_map]).
  all: try reflexivity.
  all: exfalso; match goal with
                | H : bool_decide (txt "static" = _) = true |- _ =>
                    apply bool_decide_eq_true in H; congruence
                end.
Qed.

Lemma shorten_success req st r st' :
  shorten' req st = Ok (r, st') -> status r = 200%Z ->
  exists long_url filename,
    validate_url check_bracketed_host checknetloc_nfkc long_url = true
    /\ st' = snd (store_video_url long_url filename st)
    /\ let vid := video_counter st in
       let host := rstrip (eqc Urllib.slash) (host_url req) in
       let shown := py_str (py_or filename default_filename) in
       r = jsonify
             [field "success" (PBool true);
              field "video_id" (PInt vid);
              field "short_url"
                (PStr (host ++ txt "/" ++ shown ++ txt "/download/" ++ str_of_int vid));
              field "player_url"
                (PStr (host ++ txt "/player?vid=" ++ str_of_int vid ++ txt "&name=" ++ shown));
              field "cdn_url" (PStr (host ++ txt "/cdn/" ++ str_of_int vid));
              field "filename" (py_or filename default_filename)] 200.
Proof.
  intros H Hstatus.
  apply shorten_cases in H as (long_url & filename & [H|[H|H]]).
  - destruct H as (_ & _ & ->). done.
  - destruct H as (_ & _ & _ & ->). done.
  - destruct H as (_ & Hv & -> & Hr). by exists long_url, filename.
Qed.

Lemma segment_char_facts c :
  segment_char c = true ->
  Urllib.netloc_delim c = false /\ eqc Urllib.percent c = false.
Proof.
  unfold segment_char, is_ascii_alpha, is_upper, is_lower, is_digit, mem, Urllib.netloc_delim,
    Urllib.slash, Urllib.question, Urllib.hash, Urllib.percent, eqc.
  let marks := eval vm_compute in (txt "-._~!$&'*+,;=:@()") in
  change (txt "-._~!$&'*+,;=:@()") with marks.
  cbn [existsb].
  rewrite !orb_true_iff, !andb_true_iff, !N.leb_le, !N.eqb_eq, !orb_false_iff, !N.eqb_neq.
  lia.
Qed.

Lemma unquote_str_plain s :
  Forall (fun c => eqc Urllib.percent c = false) s -> Urllib.unquote_str s = s.
Proof.
  intros H. unfold Urllib.unquote_str, mem.
  assert (existsb (eqc Urllib.percent) s = false) as ->; [|done].
  induction H as [|c s Hc _ IH]; [done|]. cbn [existsb]. by rewrite Hc, IH.
Qed.

(** The short link of a successful [/shorten] works when the filename of
    the answer is a plain segment (letters, digits and marks that need no
    escape; not empty, not a dot segment, not [static]): the path that
    the server routes is the path of the link as it was written, the only
    rule that matches it is the player's, with the same filename and,
    through the converter [int], the same identifier; and the player then
    renders the URL that was stored under that identifier, which
    [validate_url] accepts, after any later requests. *)
Theorem short_link_resolves
  (history later : list call) (req : request) (r : response) (st' : state)
  (fields : gmap (list N) pyval) (vid : Z) (name : pyval) :
  shorten' req (run' history initial) = Ok (r, st') ->
  content r = Json fields ->
  fields !! txt "video_id" = Some (PInt vid) ->
  fields !! txt "filename" = Some name ->
  plain_segment (py_str name) = true ->
  let path := txt "/" ++ py_str name ++ txt "/download/" ++ str_of_int vid in
  exists url,
    fields !! txt "short_url" = Some (PStr (rstrip (eqc Urllib.slash) (host_url req) ++ path))
    /\ video_storage st' !! KInt vid = Some {| vi_url := url; vi_filename := name |}
    /\ validate_url check_bracketed_host checknetloc_nfkc url = true
    /\ routed_path path = path
    /\ matching_rules' (routed_path path) = [(EpDownloadOrPlay, [PStr (py_str name); PInt vid])]
    /\ download_or_play (py_str name) vid (run' later st')
       = render_template "player.html"
           [field "video_url" url; field "original_url" url;
            field "filename" (PStr (py_str name))].
Proof.
  intros H Hc Hvid Hname Hplain path. subst path.
  apply shorten_cases in H as (long_url & filename & [H|[H|H]]).
  { destruct H as (_ & _ & ->). injection Hc as <-. by vm_compute in Hvid. }
  { destruct H as (_ & _ & _ & ->). injection Hc as <-. by vm_compute in Hvid. }
  destruct H as (_ & Hv & -> & Hr). cbv zeta in Hr. subst r. injection Hc as <-.
  assert (vid = video_counter (run' history initial)) as -> by (by injection Hvid as <-).
  assert (name = py_or filename default_filename) as -> by (by injection Hname as <-).
  clear Hvid Hname.
  pose proof (run_reachable_inv check_bracketed_host checknetloc_nfkc requests_get history)
    as Hinv.
  destruct (int_converter_str_of_int (video_counter (run' history initial)))
    as (Hint & Hds & Hdigits); [destruct Hinv; lia|].
  unfold plain_segment in Hplain. apply andb_true_iff in Hplain as [Hchars Hnot].
  apply forallb_Forall_true in Hchars.
  apply negb_true_iff, bool_decide_eq_false in Hnot.
  rewrite !elem_of_cons, elem_of_nil in Hnot.
  assert (routed_path (txt "/" ++ py_str (py_or filename default_filename)
                         ++ txt "/download/" ++ str_of_int (video_counter (run' history initial)))
          = link_path (txt "/" ++ py_str (py_or filename default_filename)
                         ++ txt "/download/"
                         ++ str_of_int (video_counter (run' history initial)))) as Hrouted.
  { unfold routed_path. apply unquote_str_plain.
    rewrite link_path_plain.
    - repeat (apply Forall_app; split); try by repeat constructor.
      + eapply Forall_impl; [exact Hchars|]. intros c Hc.
        by apply segment_char_facts in Hc as [_ ?].
      + eapply Forall_impl; [exact Hdigits|]. intros c Hc. unfold is_digit in Hc.
        unfold eqc, Urllib.percent. apply andb_true_iff in Hc as [Hlo _].
        apply N.leb_le in Hlo. apply N.eqb_neq. lia.
    - repeat (apply Forall_app; split); try by repeat constructor.
      + eapply Forall_impl; [exact Hchars|]. intros c Hc.
        apply segment_char_facts in Hc as [Hc _]. by apply no_delim_facts in Hc as [_ ?].
      + eapply Forall_impl; [exact Hdigits|]. intros c Hc.
        apply digit_is_no_delim in Hc as [_ Hc]. by apply no_delim_facts in Hc as [_ ?]. }
  exists long_url.
  split; [reflexivity|]. split; [apply store_video_url_lookup|]. split; [exact Hv|].
  assert (matching_rules'
            (link_path (txt "/" ++ py_str (py_or filename default_filename)
                          ++ txt "/download/"
                          ++ str_of_int (video_counter (run' history initial))))
          = [(EpDownloadOrPlay,
              [PStr (py_str (py_or filename default_filename));
               PInt (video_counter (run' history initial))])]) as Hroute.
  { apply matching_rules_short; try done.
    - intros Heq. apply Hnot; tauto.
    - intros Heq. apply Hnot; tauto.
    - eapply Forall_impl; [exact Hchars|]. intros c Hc.
      by apply segment_char_facts in Hc as [? _]. }
  split; [|split].
  - rewrite Hrouted. apply link_path_plain.
    repeat (apply Forall_app; split); try by repeat constructor.
    + eapply Forall_impl; [exact Hchars|]. intros c Hc.
      apply segment_char_facts in Hc as [Hc _]. by apply no_delim_facts in Hc as [_ ?].
    + eapply Forall_impl; [exact Hdigits|]. intros c Hc.
      apply digit_is_no_delim in Hc as [_ Hc]. by apply no_delim_facts in Hc as [_ ?].
  - by rewrite Hrouted.
  - pose proof (store_video_url_inv long_url filename _ Hinv) as Hinv1.
    destruct (run_inv check_bracketed_host checknetloc_nfkc requests_get later _ Hinv1)
      as [_ Hkept].
    unfold download_or_play.
    rewrite (Hkept _ _ (store_video_url_lookup long_url filename _)). cbn [vi_url vi_filename].
    assert (py_or (PStr (py_str (py_or filename default_filename)))
              (py_or filename default_filename)
            = PStr (py_str (py_or filename default_filename))) as ->; [|done].
    unfold py_or at 1. cbn [truthy].
    destruct (py_str (py_or filename default_filename)); [|done].
    exfalso. apply Hnot. tauto.
Qed.

(** The streaming link of a successful [/shorten] is dead: its path
    matches the rule of [stream_video] only, which receives the
    identifier as a text, and the handler answers 404 without a call to the
    upstream, after any later requests. *)
Theorem cdn_link_is_dead
  (history later : list call) (req req' : request) (r : response) (st' : state) :
  shorten' req (run' history initial) = Ok (r, st') ->
  status r = 200%Z ->
  exists fields vid,
    content r = Json fields
    /\ fields !! txt "video_id" = Some (PInt vid)
    /\ fields !! txt "cdn_url"
       = Some (PStr (rstrip (eqc Urllib.slash) (host_url req) ++ txt "/cdn/" ++ str_of_int vid))
    /\ matching_rules' (link_path (txt "/cdn/" ++ str_of_int vid))
       = [(EpStreamVideo, [PStr (str_of_int vid)])]
    /\ stream_video requests_get (str_of_int vid) req' (run' later st')
       = (Ok (jsonify [field "error" (PStr (txt "Video not found"))] 404), []).
Proof.
  intros H Hstatus.
  destruct (shorten_success _ _ _ _ H Hstatus) as (long_url & filename & Hv & -> & ->).
  pose proof (run_reachable_inv check_bracketed_host checknetloc_nfkc requests_get history)
    as Hinv.
  eexists _, (video_counter (run' history initial)).
  split; [reflexivity|]. split; [reflexivity|]. split; [reflexivity|].
  destruct (int_converter_str_of_int (video_counter (run' history initial)))
    as (Hint & Hds & Hdigits); [destruct Hinv; lia|].
  split.
  - rewrite link_path_plain; [by apply matching_rules_cdn|].
    apply Forall_app. split; [by repeat constructor|].
    eapply Forall_impl; [exact Hdigits|]. intros c Hc.
    apply digit_is_no_delim in Hc as [_ Hc]. by apply no_delim_facts in Hc as [_ ?].
  - pose proof (store_video_url_inv long_url filename _ Hinv) as Hinv1.
    destruct (run_inv check_bracketed_host checknetloc_nfkc requests_get later _ Hinv1)
      as [Hinv2 _].
    unfold stream_video. by rewrite (store_inv_no_str_key _ _ Hinv2).
Qed.

(** The player links lead nowhere: the [Location] of [short_redirect]
    (the link as the handler passes it to [redirect]) and the
    [player_url] of a successful [/shorten] have the path [/player],
    which no rule of the application matches. *)
Theorem player_links_match_no_route :
  (forall video_id,
      status (short_redirect video_id) = 302%Z
      /\ exists link,
          resp_headers (short_redirect video_id) !! txt "Location" = Some link
          /\ link_path link = txt "/player"
          /\ matching_rules' (link_path link) = [])
  /\ (forall req st r st',
        shorten' req st = Ok (r, st') ->
        status r = 200%Z ->
        exists fields link,
          content r = Json fields
          /\ fields !! txt "player_url"
             = Some (PStr (rstrip (eqc Urllib.slash) (host_url req) ++ link))
          /\ link_path link = txt "/player"
          /\ matching_rules' (link_path link) = []).
Proof.
  split.
  - intros video_id. split; [done|]. exists (txt "/player?vid=" ++ video_id).
    split; [apply lookup_singleton_eq|]. split; reflexivity.
  - intros req st r st' H Hstatus.
    destruct (shorten_success _ _ _ _ H Hstatus) as (long_url & filename & Hv & -> & ->).
    eexists _, (txt "/player?vid=" ++ _). split; [reflexivity|]. split; [reflexivity|].
    split; reflexivity.
Qed.

End Routes.

(** ** The hashed identifier *)





(** ** The further statements at concrete inputs *)

(** [GET /shorten?url=http://example.com/v.mp4&name=clip.mp4]: the
    parameter [name] is the filename and also the end of the stored
    URL. *)
Lemma shorten_reads_the_query_example :
  exists r st',
    shorten checks_pass checks_pass
      (get_parsed "url=http://example.com/v.mp4&name=clip.mp4"
         [arg "url" "http://example.com/v.mp4"; arg "name" "clip.mp4"]) initial
    = Ok (r, st')
    /\ status r = 200%Z
    /\ video_id_of (Ok r) = Some 1%Z
    /\ video_storage st'
       = {[ KInt 1 := {| vi_url := PStr (txt "http://example.com/v.mp4&name=clip.mp4");
                         vi_filename := PStr (txt "clip.mp4") |} ]}.
Proof.
  destruct (proj1 (shorten_reads_the_query checks_pass checks_pass
                     (get_parsed "url=http://example.com/v.mp4&name=clip.mp4"
                        [arg "url" "http://example.com/v.mp4"; arg "name" "clip.mp4"])
                     initial (txt "url=http://example.com/v.mp4&name=clip.mp4")
                     (or_introl eq_refl) ltac:(vm_compute; reflexivity))
              [] (txt "http://example.com/v.mp4&name=clip.mp4") eq_refl
              ltac:(intros pre' tail' _; cbn; lia))
    as [Hfull _].
  destruct (Hfull ltac:(vm_compute; discriminate)) as (_ & _ & Hstore).
  destruct (Hstore ltac:(vm_compute; reflexivity)) as (r & st' & Hs & Hstatus & Hid & _ & Hst).
  exists r, st'. split; [exact Hs|]. split; [exact Hstatus|]. split; [exact Hid|].
  rewrite Hst. reflexivity.
Defined.

Lemma stored_urls_example :
  (exists u, vi_url sample_info = PStr u /\ u <> []
             /\ validate_url checks_pass checks_pass (PStr u) = true)
  /\ truthy (vi_filename sample_info) = true.
Proof.
  apply (stored_urls_are_validated checks_pass checks_pass upstream_206
           [CallShorten (post_url "http://example.com/v.mp4")] (KInt 1) sample_info).
  vm_compute. reflexivity.
Defined.

Lemma posted_url_example :
  exists r st',
    shorten checks_pass checks_pass (post_url "http://example.com/a%20b.mp4") initial
    = Ok (r, st')
    /\ status r = 200%Z
    /\ video_storage st' !! KInt 1
       = Some {| vi_url := PStr (txt "http://example.com/a%20b.mp4");
                 vi_filename := default_filename |}.
Proof.
  destruct (posted_url_is_stored_as_sent checks_pass checks_pass upstream_206 [] []
              (post_url "http://example.com/a%20b.mp4")
              {[ txt "url" := PStr (txt "http://example.com/a%20b.mp4") ]}
              (txt "http://example.com/a%20b.mp4") (txt "clip.mp4")
              eq_refl eq_refl ltac:(vm_compute; reflexivity) ltac:(vm_compute; reflexivity))
    as (r & st' & Hs & Hstatus & _ & Hstored & _).
  exists r, st'. split; [exact Hs|]. split; [exact Hstatus|]. exact Hstored.
Defined.

Lemma api_agrees_example :
  exists rs st',
    shorten checks_pass checks_pass (get_query "url=http://example.com/v.mp4&name=x") initial
    = Ok (rs, st')
    /\ status rs = 200%Z.
Proof.
  destruct (proj2 (api_agrees_with_shorten checks_pass checks_pass
                     (get_query "url=http://example.com/v.mp4&name=x") initial eq_refl)
              (jsonify [field "success" (PBool true);
                        field "download_link" (PStr (txt "http://example.com/v.mp4&name=x"))]
                 200)
              ltac:(vm_compute; reflexivity))
    as (rs & st' & Hs & Hstatus & _).
  exists rs, st'. split; [exact Hs|]. rewrite Hstatus. reflexivity.
Defined.

(** The parameter [name] after the URL becomes part of the URL. *)
Lemma extract_full_url_example :
  extract_full_url (get_query "url=http://example.com/v.mp4&name=x")
  = Ok (PStr (txt "http://example.com/v.mp4&name=x")).
Proof.
  refine (proj1 (extract_full_url_takes_the_rest
                   (get_query "url=http://example.com/v.mp4&name=x")
                   (txt "url=http://example.com/v.mp4&name=x") _)
            [] (txt "http://example.com/v.mp4&name=x") _ _).
  - vm_compute. reflexivity.
  - reflexivity.
  - intros pre' tail' _. cbn. lia.
Defined.

Lemma relayed_headers_example : txt "Content-Type" ∈ relayed_header_names.
Proof.
  apply (relayed_headers_are_fixed
           {| up_status := 200; up_headers := ∅; up_chunks := [] |} (txt "Content-Type")).
  vm_compute. by eexists.
Defined.

Lemma player_filename_example :
  exists context,
    download_or_play (txt "clip.mp4") 7 initial
    = {| status := 200; resp_headers := ∅; content := Template (txt "player.html") context |}
    /\ context !! txt "filename" = Some (PStr (txt "Expired")).
Proof.
  destruct (player_shows_the_path_filename (txt "clip.mp4") 7 initial ltac:(discriminate))
    as (context & Hpage & _ & Hname).
  exists context. split; [exact Hpage|exact Hname].
Defined.

(** The answer to the first [POST /shorten] names [video.mp4]; its short
    link [/video.mp4/download/1] is routed to the player with the
    identifier 1. *)
Lemma short_link_example :
  plain_segment (txt "video.mp4") = true
  /\ routed_path (txt "/video.mp4/download/1") = txt "/video.mp4/download/1"
  /\ matching_rules ascii_digits_only (routed_path (txt "/video.mp4/download/1"))
     = [(EpDownloadOrPlay, [PStr (txt "video.mp4"); PInt 1])].
Proof.
  split; [vm_compute; reflexivity|].
  destruct (shorten checks_pass checks_pass (post_url "http://example.com/v.mp4")
              (run checks_pass checks_pass upstream_206 [] initial))
    as [[r st']|e] eqn:E; [|by vm_compute in E].
  assert (exists fields,
             content r = Json fields
             /\ fields !! txt "video_id" = Some (PInt 1)
             /\ fields !! txt "filename" = Some (PStr (txt "video.mp4")))
    as (fields & Hc & Hvid & Hname).
  { vm_compute in E. injection E as <- _. eexists. split; [reflexivity|].
    split; vm_compute; reflexivity. }
  destruct (short_link_resolves checks_pass checks_pass upstream_206 ascii_digits_only
              [] [] _ _ _ fields 1 (PStr (txt "video.mp4")) E Hc Hvid Hname
              ltac:(vm_compute; reflexivity))
    as (url & _ & _ & _ & Hrouted & Hroute & _).
  split; [exact Hrouted|exact Hroute].
Defined.

Lemma cdn_link_example :
  exists r st' vid,
    shorten checks_pass checks_pass (post_url "http://example.com/v.mp4")
      (run checks_pass checks_pass upstream_206 [] initial) = Ok (r, st')
    /\ matching_rules ascii_digits_only (link_path (txt "/cdn/" ++ str_of_int vid))
       = [(EpStreamVideo, [PStr (str_of_int vid)])]
    /\ stream_video upstream_206 (str_of_int vid) (bare_request GET)
         (run checks_pass checks_pass upstream_206 [] st')
       = (Ok (jsonify [field "error" (PStr (txt "Video not found"))] 404), []).
Proof.
  destruct (shorten checks_pass checks_pass (post_url "http://example.com/v.mp4")
              (run checks_pass checks_pass upstream_206 [] initial))
    as [[r st']|e] eqn:E; [|by vm_compute in E].
  assert (status r = 200%Z) as Hstatus by (vm_compute in E; by injection E as <- _).
  destruct (cdn_link_is_dead checks_pass checks_pass upstream_206 ascii_digits_only
              [] [] _ (bare_request GET) _ _ E Hstatus)
    as (fields & vid & _ & _ & _ & Hroute & Hdead).
  by exists r, st', vid.
Defined.

(** The short link of the scenario, followed: the path goes to the
    player with the identifier 1. *)
Example short_link_of_the_scenario :
  matching_rules ascii_digits_only (link_path (txt "/video.mp4/download/1?x=1"))
  = [(EpDownloadOrPlay, [PStr (txt "video.mp4"); PInt 1])].
Proof. reflexivity. Qed.

(** Known answers of [generate_video_id]. *)
Example generate_video_id_examples :
  generate_video_id [] = Ok (txt "d41d8cd98f00")
  /\ generate_video_id (txt "abc") = Ok (txt "900150983cd2").
Proof. split; vm_compute; reflexivity. Qed.
